(** * mongo-compression-demo: a shallow embedding of [main.go]

    The benchmark synthesises one large BSON document, inserts it once per
    wire compressor (snappy, zlib, zstd) through a fresh client, reads the
    collection's storage size back and reports reduction, ratio, a
    network-traffic projection and a cost projection.

    Conventions of the embedding:
    - Go's [int], [int64] and [time.Duration] are [Z]; [float64] is the
      kernel's binary64 [float], so every arithmetic step rounds as the
      machine does (operations are rounded one by one, as on amd64; the
      optional fusing of [x*y+z] that the language allows is not modelled);
    - a byte is a [Z] in [0, 256);
    - [primitive.D] is an ordered list of key/value pairs, [primitive.M]
      and [bson.M] are finite maps from strings;
    - the MongoDB server, the BSON encoder and the clock are a [Backend]
      of oracles that answer from the history of calls so far; the history
      is the state threaded through the program;
    - a Go function returning [(T, error)] returns [Ret v err]; a run-time
      panic is [Panic msg];
    - of standard output only the orchestrator's progress line is kept as
      an event; the reporter returns the values it prints, and the
      rendering (colours, number formats, the fixed table of expected
      results) is left out. *)

From Stdlib Require Import ZArith String Ascii List Floats Lia.
From stdpp Require Import base option list strings gmap pretty.

#[local] Set Warnings "-inexact-float,-register-all".
#[local] Open Scope string_scope.
#[local] Open Scope Z_scope.

(** ** Numbers *)

(** [float64(x)] for an integer [x]: the nearest binary64 value, ties to
    even. *)
Definition float64 (x : Z) : float :=
  SF2Prim (binary_normalize prec emax x 0 false).

(** [byte(x)] for an integer [x]: the low eight bits. *)
Definition byte (x : Z) : Z := x mod 256.

(** Go's [%] on integers truncates towards zero. *)
Definition go_rem (a b : Z) : Z := Z.rem a b.

(** [int(f)] for a float [f]: the fraction is discarded; a value that is
    not finite converts to the smallest int64, as the amd64 conversion
    instruction answers. *)
Definition int_of_float64 (f : float) : Z :=
  match Prim2SF f with
  | S754_zero _ => 0
  | S754_finite s m e =>
      let mag := if (0 <=? e)%Z then Z.pos m * 2 ^ e else Z.pos m / 2 ^ (- e) in
      let v := if s then - mag else mag in
      if ((- 2 ^ 63 <=? v) && (v <? 2 ^ 63))%bool then v else - 2 ^ 63
  | _ => - 2 ^ 63
  end.

(** ** BSON values *)

Inductive BsonValue : Type :=
| VNil
| VInt (i : Z)
| VInt32 (i : Z)
| VInt64 (i : Z)
| VDouble (f : float)
| VString (s : string)
| VBool (b : bool)
| VObjectID (id : list Z)
| VTime (t : Z)
| VBytes (bs : list Z)
| VStrings (ss : list string)
| VInts (xs : list Z)
| VArray (vs : list BsonValue)
| VM (m : gmap string BsonValue)
| VD (d : list (string * BsonValue)).

(** [primitive.D]: an ordered document. *)
Definition Document : Type := list (string * BsonValue).

(** The value stored under a key of an ordered document (first match). *)
Fixpoint doc_get (key : string) (d : Document) : option BsonValue :=
  match d with
  | [] => None
  | (k, v) :: rest => if String.eqb k key then Some v else doc_get key rest
  end.

(** ** Strings *)

(** [strings.Repeat(s, count)] for a count that is not negative. *)
Fixpoint strings_Repeat (s : string) (count : nat) : string :=
  match count with
  | O => ""
  | S n => s +:+ strings_Repeat s n
  end.

Definition lower_ascii (c : ascii) : ascii :=
  let n := nat_of_ascii c in
  if ((65 <=? n)%nat && (n <=? 90)%nat)%bool then ascii_of_nat (n + 32) else c.

(** [strings.ToLower] on ASCII text. *)
Fixpoint strings_ToLower (s : string) : string :=
  match s with
  | EmptyString => EmptyString
  | String c rest => String (lower_ascii c) (strings_ToLower rest)
  end.

(** ** Document synthesizer: [generateLargeDocument] *)

(** [make([]T, n)] followed by [for i := range l { l[i] = f(i) }]:
    every index of the slice is assigned in increasing order. *)
Definition fill_range {A : Type} (f : nat -> A) (l : list A) : list A :=
  foldl (fun acc i => <[i := f i]> acc) l (seq 0 (length l)).

Definition repeatCount : nat := Z.to_nat 50000.
Definition itemCount : nat := Z.to_nat 5000.
Definition binaryLen : nat := Z.to_nat 300000.

Definition sentence : string :=
  "This is highly compressible repetitive text pattern. ".

Definition repetitiveText : string := strings_Repeat sentence repeatCount.

Definition productItem (i : nat) : BsonValue :=
  VM (list_to_map
    [ ("id", VInt (Z.of_nat i));
      ("name", VString ("Product_Item_Number_" +:+ pretty (Z.of_nat i)));
      ("description", VString "This is a repeated item description that compresses efficiently with MongoDB compression algorithms");
      ("price", VDouble (float64 (Z.of_nat i) * 1.99)%float);
      ("metadata", VM (list_to_map
         [ ("tags", VStrings ["electronics"; "home"; "kitchen"; "premium"]);
           ("categories", VStrings ["main"; "featured"; "bestseller"]);
           ("features", VStrings ["wireless"; "bluetooth"; "rechargeable"; "smart"]) ]));
      ("reviews", VM (list_to_map
         [ ("average_rating", VDouble 4.5%float);
           ("total_reviews", VInt 150);
           ("stars", VInts [100; 200; 300; 250; 150]) ])) ]).

Definition items : list BsonValue :=
  fill_range productItem (replicate itemCount VNil).

Definition binaryData : list Z :=
  fill_range (fun i => byte (go_rem (Z.of_nat i) 256)) (replicate binaryLen 0).

(** The document; [objectID] and [now] are what [primitive.NewObjectID()]
    and [time.Now()] answer at the call. *)
Definition generateLargeDocument (objectID : list Z) (now : Z) : Document :=
  [ ("_id", VObjectID objectID);
    ("description", VString "Large 4.7MB document for MongoDB compression testing");
    ("timestamp", VTime now);
    ("version", VString "1.0");
    ("repetitive_text", VString repetitiveText);
    ("product_items", VArray items);
    ("binary_data", VBytes binaryData);
    ("metadata", VM (list_to_map
       [ ("created_by", VString "compression-demo");
         ("document_type", VString "performance_test");
         ("size_category", VString "4.7MB");
         ("compression_test", VBool true) ])) ].

(** ** Results, errors and the outside world *)

(** [CompressionResult] *)
Record CompressionResult : Type := mkResult {
  Algorithm : string;
  OriginalSize : Z;
  CompressedSize : Z;
  ReductionPercent : float;
  CompressionRatio : float;
  InsertTime : Z
}.

(** What a Go call hands back: its values with the [error] (absent when
    [nil]), or a panic that unwinds the caller. *)
Inductive GoResult (A : Type) : Type :=
| Ret (v : A) (err : option string)
| Panic (msg : string).
Arguments Ret {A} v err.
Arguments Panic {A} msg.

(** An answer of a library call that yields a value or an error. *)
Inductive Try (A : Type) : Type :=
| Ok (a : A)
| Fail (err : string).
Arguments Ok {A} a.
Arguments Fail {A} err.

(** What the program does to the world, in the order it does it. *)
Inductive Event : Type :=
| EvPrint (line : string)   (* a line on standard output *)
| EvConnect (uri : string) (compressors : list string) (appName : string)
| EvDisconnect
| EvDropCollection (db coll : string)
| EvInsertOne (db coll : string) (doc : Document)
| EvRunCommand (db : string) (cmd : Document)
| EvDropDatabase (db : string)
| EvSleep (ms : Z).

(** The events so far, the latest first. *)
Definition History : Type := list Event.

(** The collaborators: each answers from the history at the call. *)
Record Backend : Type := {
  bson_Marshal : Document -> Try nat;
  mongo_Connect : History -> list string -> option string;
  collection_InsertOne : History -> string -> Document -> option string;
  database_RunCommand : History -> Document -> Try (gmap string BsonValue);
  time_Now : History -> Z;
  primitive_NewObjectID : History -> list Z
}.

(** The dynamic type a decoded value has in a [bson.M], as the run-time
    names it in a failed type assertion. *)
Definition dynamic_type (v : option BsonValue) : string :=
  match v with
  | None | Some VNil => "nil"
  | Some (VInt _) => "int"
  | Some (VInt32 _) => "int32"
  | Some (VInt64 _) => "int64"
  | Some (VDouble _) => "float64"
  | Some (VString _) => "string"
  | Some (VBool _) => "bool"
  | Some (VObjectID _) => "primitive.ObjectID"
  | Some (VTime _) => "primitive.DateTime"
  | Some (VBytes _) => "primitive.Binary"
  | Some (VStrings _) | Some (VInts _) | Some (VArray _) => "primitive.A"
  | Some (VM _) => "primitive.M"
  | Some (VD _) => "primitive.D"
  end.

(** [v.(int64)]: the single-value type assertion, which panics on any
    other dynamic type and on [nil]. *)
Definition assert_int64 (v : option BsonValue) : GoResult Z :=
  match v with
  | Some (VInt64 i) => Ret i None
  | _ => Panic ("interface conversion: interface {} is " +:+ dynamic_type v +:+ ", not int64")
  end.

Section Engine.

Variable be : Backend.

(** [getDocumentSize] *)
Definition getDocumentSize (doc : Document) : Z * option string :=
  match bson_Marshal be doc with
  | Fail err => (0, Some err)
  | Ok n => (Z.of_nat n, None)
  end.

(** The part of [testCompression] that runs with the client open: from
    the collection handle to the return. *)
Definition measure (result : CompressionResult) (doc : Document) (h : History)
  : History * GoResult CompressionResult :=
  let database := "compression_demo" in
  let collection := "test_" +:+ strings_ToLower (Algorithm result) in
  let h := EvDropCollection database collection :: h in
  let start := time_Now be h in
  let h := EvInsertOne database collection doc :: h in
  match collection_InsertOne be h collection doc with
  | Some err => (h, Ret result (Some err))
  | None =>
      let result := mkResult (Algorithm result) (OriginalSize result)
                      (CompressedSize result) (ReductionPercent result)
                      (CompressionRatio result) (time_Now be h - start) in
      let cmd := [("collStats", VString collection)] in
      let h := EvRunCommand database cmd :: h in
      match database_RunCommand be h cmd with
      | Fail err => (h, Ret result (Some err))
      | Ok statsResult =>
          match assert_int64 (statsResult !! "storageSize") with
          | Panic msg => (h, Panic msg)
          | Ret storageSize _ =>
              let originalSize := OriginalSize result in
              (h, Ret (mkResult (Algorithm result) originalSize storageSize
                         ((1 - float64 storageSize / float64 originalSize) * 100)%float
                         (float64 originalSize / float64 storageSize)%float
                         (InsertTime result)) None)
          end
      end
  end.

(** [testCompression] *)
Definition testCompression (algorithm compressor : string) (doc : Document) (h : History)
  : History * GoResult CompressionResult :=
  let result := mkResult algorithm 0 0 0%float 0%float 0 in
  match getDocumentSize doc with
  | (_, Some err) => (h, Ret result (Some err))
  | (originalSize, None) =>
      let result := mkResult algorithm originalSize 0 0%float 0%float 0 in
      let h := EvConnect "mongodb://localhost:27017" [compressor] "compression-demo" :: h in
      match mongo_Connect be h [compressor] with
      | Some err => (h, Ret result (Some err))
      | None =>
          (* the deferred Disconnect runs on every way out, a panic included *)
          let '(h, out) := measure result doc h in
          (EvDisconnect :: h, out)
      end
  end.

(** The fixed table of [runAllCompressionTests]. *)
Definition tests : list (string * string) :=
  [ ("Snappy", "snappy"); ("Zlib", "zlib"); ("Zstd", "zstd") ].

(** The loop of [runAllCompressionTests] over the tests that remain. *)
Fixpoint runTests (ts : list (string * string)) (doc : Document)
    (results : list CompressionResult) (h : History)
  : History * GoResult (list CompressionResult) :=
  match ts with
  | [] => (h, Ret results None)
  | (name, compressor) :: rest =>
      let h := EvPrint ("🧪 Testing " +:+ name +:+ " compression...") :: h in
      match testCompression name compressor doc h with
      | (h, Panic msg) => (h, Panic msg)
      | (h, Ret _ (Some err)) => (h, Ret [] (Some (name +:+ " test failed: " +:+ err)))
      | (h, Ret result None) =>
          runTests rest doc (results ++ [result]) (EvSleep 100 :: h)
      end
  end.

(** [runAllCompressionTests] *)
Definition runAllCompressionTests (doc : Document) (h : History)
  : History * GoResult (list CompressionResult) :=
  runTests tests doc [] h.

End Engine.

(** ** Reporter *)

(** A row of the comparison chart: the algorithm, the number of bar
    cells and the percentage printed beside the bar. *)
Record ChartRow : Type := mkChartRow {
  chartAlgorithm : string;
  bars : Z;
  chartPercent : float
}.

(** A row of the network traffic simulation. *)
Record NetworkRow : Type := mkNetworkRow {
  networkAlgorithm : string;
  totalMB : float;
  savedMB : float;
  savingsPercent : float
}.

(** A row of the cost analysis. *)
Record CostRow : Type := mkCostRow {
  costAlgorithm : string;
  cost : float;
  savings : float;
  costReduction : float
}.

(** What [displayCostAnalysis] prints: the cost without compression, and
    one row per result. *)
Record CostReport : Type := mkCostReport {
  originalCost : float;
  costRows : list CostRow
}.

(** What [displayPerformanceAnalysis] prints. *)
Record Analysis : Type := mkAnalysis {
  bestCompression : CompressionResult;
  fastest : CompressionResult;
  network : list NetworkRow;
  costs : CostReport
}.

(** [x > y] on [float64]: false when either side is not a number. *)
Definition float_gt (x y : float) : bool := (y <? x)%float.

(** [displayComparisonChart]: [strings.Repeat] panics on a negative
    count. *)
Fixpoint displayComparisonChart (results : list CompressionResult)
  : GoResult (list ChartRow) :=
  match results with
  | [] => Ret [] None
  | result :: rest =>
      let bars := int_of_float64 (ReductionPercent result / 2)%float in
      if bars <? 0 then Panic "strings: negative Repeat count"
      else match displayComparisonChart rest with
           | Panic msg => Panic msg
           | Ret rows err =>
               Ret (mkChartRow (Algorithm result) bars (ReductionPercent result) :: rows) err
           end
  end.

Definition costPerGB : float := 0.09%float.
Definition monthlyTransfers : Z := 1000000.

(** The body of the loop of [displayCostAnalysis]. *)
Definition costRow (originalCost : float) (result : CompressionResult) : CostRow :=
  let compressedSizeMB := (float64 (CompressedSize result) / 1024 / 1024)%float in
  let costGB := ((compressedSizeMB * float64 monthlyTransfers) / 1024)%float in
  let cost := (costGB * costPerGB)%float in
  let savings := (originalCost - cost)%float in
  mkCostRow (Algorithm result) cost savings ((savings / originalCost) * 100)%float.

(** [displayCostAnalysis] *)
Definition displayCostAnalysis (results : list CompressionResult) (originalSizeMB : float)
  : CostReport :=
  let originalCostGB := ((originalSizeMB * float64 monthlyTransfers) / 1024)%float in
  let originalCost := (originalCostGB * costPerGB)%float in
  mkCostReport originalCost (map (costRow originalCost) results).

(** The body of the first loop of [displayPerformanceAnalysis]: the best
    and the fastest so far, and the next result. *)
Definition select (acc : CompressionResult * CompressionResult) (result : CompressionResult)
  : CompressionResult * CompressionResult :=
  let '(bestCompression, fastest) := acc in
  (if float_gt (ReductionPercent result) (ReductionPercent bestCompression)
   then result else bestCompression,
   if InsertTime result <? InsertTime fastest then result else fastest).

(** The body of the second loop: the network traffic simulation. *)
Definition networkRow (originalSizeMB : float) (result : CompressionResult) : NetworkRow :=
  let totalMB := (float64 (CompressedSize result) / 1024 / 1024 * 1000)%float in
  let savedMB := ((originalSizeMB * 1000) - totalMB)%float in
  let savingsPercent := ((savedMB / (originalSizeMB * 1000)) * 100)%float in
  mkNetworkRow (Algorithm result) totalMB savedMB savingsPercent.

(** [displayPerformanceAnalysis]: [results[0]] panics on an empty slice. *)
Definition displayPerformanceAnalysis (results : list CompressionResult)
  : GoResult Analysis :=
  match results with
  | [] => Panic "runtime error: index out of range [0] with length 0"
  | first :: _ =>
      let '(bestCompression, fastest) := foldl select (first, first) results in
      let originalSizeMB := (float64 (OriginalSize first) / 1024 / 1024)%float in
      Ret (mkAnalysis bestCompression fastest
             (map (networkRow originalSizeMB) results)
             (displayCostAnalysis results originalSizeMB)) None
  end.

(** What [displayResults] prints after the per-result blocks: the chart
    and the analysis. *)
Definition displayResults (results : list CompressionResult) (originalSizeMB : float)
  : GoResult (list ChartRow * Analysis) :=
  match displayComparisonChart results with
  | Panic msg => Panic msg
  | Ret chart _ =>
      match displayPerformanceAnalysis results with
      | Panic msg => Panic msg
      | Ret analysis err => Ret (chart, analysis) err
      end
  end.

(** ** The program: [main] *)

(** How the process ends: it returns from [main], it exits through
    [log.Fatalf], or it dies of a panic. *)
Inductive Exit : Type :=
| Completed (chart : list ChartRow) (analysis : Analysis)
| Fatal (msg : string)
| Crashed (msg : string).

Section Program.

Variable be : Backend.

(** [main], from the first connection to the last deferred call.
    [log.Fatalf] exits at once, so the deferred [Disconnect] is skipped
    there; a panic runs it. *)
Definition main (h : History) : History * Exit :=
  let uri := "mongodb://localhost:27017" in
  let h := EvConnect uri [] "" :: h in
  match mongo_Connect be h [] with
  | Some err => (h, Fatal ("Failed to connect to MongoDB: " +:+ err))
  | None =>
      let doc := generateLargeDocument (primitive_NewObjectID be h) (time_Now be h) in
      match getDocumentSize be doc with
      | (_, Some err) => (h, Fatal ("Failed to get document size: " +:+ err))
      | (originalSize, None) =>
          let originalSizeMB := (float64 originalSize / 1024 / 1024)%float in
          match runAllCompressionTests be doc h with
          | (h, Panic msg) => (EvDisconnect :: h, Crashed msg)
          | (h, Ret _ (Some err)) => (h, Fatal ("Compression tests failed: " +:+ err))
          | (h, Ret results None) =>
              match displayResults results originalSizeMB with
              | Panic msg => (EvDisconnect :: h, Crashed msg)
              | Ret (chart, analysis) _ =>
                  (EvDisconnect :: EvDropDatabase "compression_demo" :: h,
                   Completed chart analysis)
              end
          end
      end
  end.

End Program.

(** The documents the inserts of a history carried, the latest first. *)
Fixpoint insertedDocs (h : History) : list Document :=
  match h with
  | [] => []
  | EvInsertOne _ _ doc :: rest => doc :: insertedDocs rest
  | _ :: rest => insertedDocs rest
  end.

(** The compressors the connections of a history asked for, the latest
    first. *)
Fixpoint connections (h : History) : list (list string) :=
  match h with
  | [] => []
  | EvConnect _ cs _ :: rest => cs :: connections rest
  | _ :: rest => connections rest
  end.

(** ** Points of a run and sample collaborators *)

(** The collection a run of the driver writes to. *)
Definition collectionOf (algorithm : string) : string :=
  "test_" +:+ strings_ToLower algorithm.

(** The history when the driver asks for its connection, ... *)
Definition connected (compressor : string) (h : History) : History :=
  EvConnect "mongodb://localhost:27017" [compressor] "compression-demo" :: h.

(** ... when it has dropped the collection and reads the clock, ... *)
Definition dropped (algorithm compressor : string) (h : History) : History :=
  EvDropCollection "compression_demo" (collectionOf algorithm) :: connected compressor h.

(** ... when it inserts, ... *)
Definition inserted (algorithm compressor : string) (doc : Document) (h : History) : History :=
  EvInsertOne "compression_demo" (collectionOf algorithm) doc :: dropped algorithm compressor h.

(** ... and when it asks for the collection statistics. *)
Definition statsCommand (algorithm : string) : Document :=
  [("collStats", VString (collectionOf algorithm))].

Definition queried (algorithm compressor : string) (doc : Document) (h : History) : History :=
  EvRunCommand "compression_demo" (statsCommand algorithm) :: inserted algorithm compressor doc h.

(** The progress lines of a history, the latest first. *)
Fixpoint printed (h : History) : list string :=
  match h with
  | [] => []
  | EvPrint line :: rest => line :: printed rest
  | _ :: rest => printed rest
  end.

(** The progress line of an algorithm. *)
Definition progressLine (name : string) : string :=
  "🧪 Testing " +:+ name +:+ " compression...".

(** A backend that accepts every call: documents encode to [size] bytes,
    the statistics of a collection report [storage coll] as storage size,
    and every event takes a millisecond. *)
Definition steadyBackend (size : nat) (storage : string -> BsonValue) : Backend :=
  {| bson_Marshal := fun _ => Ok size;
     mongo_Connect := fun _ _ => None;
     collection_InsertOne := fun _ _ _ => None;
     database_RunCommand := fun _ cmd =>
       match doc_get "collStats" cmd with
       | Some (VString coll) =>
           Ok (<["ns" := VString ("compression_demo." +:+ coll)]>
                 (<["storageSize" := storage coll]> ∅))
       | _ => Fail "no such command"
       end;
     time_Now := fun h => Z.of_nat (length h) * 1000000;
     primitive_NewObjectID := fun _ => replicate 12 0 |}.

(** The same backend, except that it refuses connections that ask for
    the compressor [refused]. *)
Definition refusingBackend (refused : string) (size : nat) (storage : string -> BsonValue)
  : Backend :=
  {| bson_Marshal := bson_Marshal (steadyBackend size storage);
     mongo_Connect := fun _ cs =>
       if decide (cs = [refused]) then Some "server selection error" else None;
     collection_InsertOne := collection_InsertOne (steadyBackend size storage);
     database_RunCommand := database_RunCommand (steadyBackend size storage);
     time_Now := time_Now (steadyBackend size storage);
     primitive_NewObjectID := primitive_NewObjectID (steadyBackend size storage) |}.

(** A small document to run the engine on. *)
Definition tinyDoc : Document := [("_id", VInt 1); ("version", VString "1.0")].

(** ** Sample results and the reading of the spec's round figures *)

(** A result as the driver derives it from an original size, a reported
    storage size and an insert time. *)
Definition resultOf (algorithm : string) (originalSize storageSize insertTime : Z)
  : CompressionResult :=
  mkResult algorithm originalSize storageSize
    ((1 - float64 storageSize / float64 originalSize) * 100)%float
    (float64 originalSize / float64 storageSize)%float
    insertTime.

(** [v] lies within [tol] of the figure [x]. *)
Definition within (v x tol : float) : bool :=
  (PrimFloat.abs (v - x) <? tol)%float.

(** [v] agrees with the figure [x] to two decimals: it lies within half
    a hundredth of it, which is when it prints as [x] under [%.2f]. *)
Definition to_two_decimals (v x : float) : bool := within v x 0.005%float.

(** The cost scenario: an original of 4.7 MB and an algorithm whose
    compressed size is 2.26 MB to two decimals. The byte counts with such
    a size are 2364539 to 2375024; [scenarioResult] is one of them. *)
Definition scenarioLow : Z := 2364539.
Definition scenarioHigh : Z := 2375024.
Definition scenarioResult : CompressionResult := resultOf "Zlib" 4928307 2369485 0.

(** The figures of the scenario checked for one byte count: the size is
    2.26 MB to two decimals, the cost is within half a dollar of 198.61,
    the saving within half a dollar of 214.48 and the cost reduction
    within 0.15 of 51.9 percent. *)
Definition scenarioFigures (bytes : Z) : bool :=
  let originalCost := originalCost (displayCostAnalysis [] 4.7%float) in
  let row := costRow originalCost (resultOf "" 0 bytes 0) in
  to_two_decimals (float64 bytes / 1024 / 1024)%float 2.26%float
  && within (cost row) 198.61%float 0.5%float
  && within (savings row) 214.48%float 0.5%float
  && within (costReduction row) 51.9%float 0.15%float.

(** ** The order of binary64, through a key *)

(** A key of a number under which the comparison of binary64 is the
    lexicographic order of triples: the class (negative infinity,
    negative, zero, positive, positive infinity), then the exponent and
    the mantissa, both negated for a negative number. *)
Definition SFkey (f : spec_float) : Z * Z * Z :=
  match f with
  | S754_nan => (0, 0, 0)
  | S754_zero _ => (0, 0, 0)
  | S754_infinity s => (if s then -2 else 2, 0, 0)
  | S754_finite s m e => if s then (-1, - e, - Z.pos m) else (1, e, Z.pos m)
  end.

Definition lex_lt (a b : Z * Z * Z) : Prop :=
  fst (fst a) < fst (fst b)
  \/ (fst (fst a) = fst (fst b)
      /\ (snd (fst a) < snd (fst b)
          \/ (snd (fst a) = snd (fst b) /\ snd a < snd b))).

Definition key (x : float) : Z * Z * Z := SFkey (Prim2SF x).

(** [x] is a number: it is not a NaN. *)
Definition is_number (x : float) : Prop := Prim2SF x <> S754_nan.

(** ** What the selection loop maintains *)

(** After [n] results have been looked at, [b] is the best so far: it
    stands at some index [i] of the sequence, none of the [n] results
    looked at is greater, and none before [i] is equal. *)
Definition best_so_far (results : list CompressionResult) (n : nat)
    (b : CompressionResult) : Prop :=
  exists i : nat,
    results !! i = Some b /\ (i = 0 \/ i < n)%nat
    /\ (forall j r, (j < n)%nat -> results !! j = Some r ->
          float_gt (ReductionPercent r) (ReductionPercent b) = false)
    /\ (forall j r, (j < i)%nat -> results !! j = Some r ->
          (ReductionPercent r =? ReductionPercent b)%float = false).

(** Likewise [f] is the fastest so far: none of the [n] results looked at
    took less time, and every one before its index took more. *)
Definition fastest_so_far (results : list CompressionResult) (n : nat)
    (f : CompressionResult) : Prop :=
  exists k : nat,
    results !! k = Some f /\ (k = 0 \/ k < n)%nat
    /\ (forall j r, (j < n)%nat -> results !! j = Some r -> InsertTime f <= InsertTime r)
    /\ (forall j r, (j < k)%nat -> results !! j = Some r -> InsertTime f < InsertTime r).

(** Three results with a tie in both columns: Zlib and Zstd share the
    greatest reduction and the least insert time. *)
Definition tiedResults : list CompressionResult :=
  [ mkResult "Snappy" 4700000 3525000 25%float 1.33%float 9000000;
    mkResult "Zlib" 4700000 2209000 53%float 2.13%float 7000000;
    mkResult "Zstd" 4700000 2209000 53%float 2.13%float 7000000 ].

(** ** The per-result block of [displayResults] and its helpers *)

(** The colours of the [color] package that the reporter uses. *)
Inductive Colour : Type := Blue | Green | Yellow | Red | Cyan | Magenta.

(** The [switch result.Algorithm] of [displayResults]: the colour and the
    emoji of the heading. *)
Definition resultStyle (algorithm : string) : Colour * string :=
  if String.eqb algorithm "Snappy" then (Yellow, "🚀")
  else if String.eqb algorithm "Zlib" then (Green, "📦")
  else if String.eqb algorithm "Zstd" then (Cyan, "⚡")
  else (Red, "❓").

(** The [switch result.Algorithm] of [displayComparisonChart]: the colour
    of the bar. *)
Definition chartColour (algorithm : string) : Colour :=
  if String.eqb algorithm "Snappy" then Yellow
  else if String.eqb algorithm "Zlib" then Green
  else if String.eqb algorithm "Zstd" then Green
  else Red.

(** The escape sequence [ESC [ code m]. *)
Definition ansi (code : string) : string :=
  String (ascii_of_nat 27) ("[" +:+ code +:+ "m").

(** [getReductionColor]: the cases are tried in order, and a comparison
    with a NaN is false. *)
Definition getReductionColor (reduction : float) : string :=
  if (50 <=? reduction)%float then ansi "32"
  else if (30 <=? reduction)%float then ansi "33"
  else ansi "31".

(** A 64-bit result of signed arithmetic: the value wrapped into
    [-2^63, 2^63). *)
Definition int64 (z : Z) : Z := (z + 2 ^ 63) mod 2 ^ 64 - 2 ^ 63.

(** [lessThanHalf] of package [time]: [x + x < y] on the unsigned
    readings. *)
Definition lessThanHalf (x y : Z) : bool :=
  (x mod 2 ^ 64 + x mod 2 ^ 64) mod 2 ^ 64 <? y mod 2 ^ 64.

(** [Duration.Round] of package [time], which the reporter calls with one
    millisecond: the nearest multiple of [m], halves away from zero, the
    extreme durations on overflow. *)
Definition duration_Round (d m : Z) : Z :=
  if m <=? 0 then d
  else
    let r := go_rem d m in
    if d <? 0 then
      let r := int64 (- r) in
      if lessThanHalf r m then int64 (d + r)
      else
        let d1 := int64 (int64 (d - m) + r) in
        if d1 <? d then d1 else - 2 ^ 63
    else if lessThanHalf r m then int64 (d - r)
    else
      let d1 := int64 (int64 (d + m) - r) in
      if d <? d1 then d1 else 2 ^ 63 - 1.

Definition millisecond : Z := 1000000.

(** What the loop of [displayResults] prints for one result. *)
Record ResultBlock : Type := mkResultBlock {
  blockColour : Colour;
  blockEmoji : string;
  blockAlgorithm : string;
  blockOriginalMB : float;
  blockCompressedMB : float;
  blockReductionColor : string;
  blockReduction : float;
  blockRatio : float;
  blockInsertTime : Z
}.

(** The body of the loop of [displayResults]. *)
Definition resultBlock (result : CompressionResult) : ResultBlock :=
  let '(colorizer, emoji) := resultStyle (Algorithm result) in
  mkResultBlock colorizer emoji (Algorithm result)
    (float64 (OriginalSize result) / 1024 / 1024)%float
    (float64 (CompressedSize result) / 1024 / 1024)%float
    (getReductionColor (ReductionPercent result))
    (ReductionPercent result)
    (CompressionRatio result)
    (duration_Round (InsertTime result) millisecond).

(** ** Readings of a history *)

(** The events a run of the driver leaves, the latest first, when every
    call is accepted and the orchestrator has slept after it. *)
Definition runTrace (name compressor : string) (doc : Document) (h : History) : History :=
  EvSleep 100 :: EvDisconnect
    :: queried name compressor doc (EvPrint (progressLine name) :: h).

(** The number of clients disconnected, ... *)
Fixpoint disconnects (h : History) : nat :=
  match h with
  | [] => 0
  | EvDisconnect :: rest => S (disconnects rest)
  | _ :: rest => disconnects rest
  end.

(** ... of connections the driver asked for (they carry its application
    name), ... *)
Fixpoint driverConnects (h : History) : nat :=
  match h with
  | [] => 0
  | EvConnect _ _ appName :: rest =>
      if String.eqb appName "compression-demo" then S (driverConnects rest)
      else driverConnects rest
  | _ :: rest => driverConnects rest
  end.

(** ... and of databases dropped. *)
Fixpoint databaseDrops (h : History) : nat :=
  match h with
  | [] => 0
  | EvDropDatabase _ :: rest => S (databaseDrops rest)
  | _ :: rest => databaseDrops rest
  end.

(** A backend as [steadyBackend] whose insert is refused for the
    collection [refused]. *)
Definition rejectingBackend (refused : string) (size : nat) (storage : string -> BsonValue)
  : Backend :=
  {| bson_Marshal := bson_Marshal (steadyBackend size storage);
     mongo_Connect := mongo_Connect (steadyBackend size storage);
     collection_InsertOne := fun _ coll _ =>
       if String.eqb coll refused then Some "write exception" else None;
     database_RunCommand := database_RunCommand (steadyBackend size storage);
     time_Now := time_Now (steadyBackend size storage);
     primitive_NewObjectID := primitive_NewObjectID (steadyBackend size storage) |}.

(** The storage sizes of a backend that reports an int32 for the
    collection [odd] and the int64 [size] for the others. *)
Definition oddStorage (odd : string) (size : Z) (coll : string) : BsonValue :=
  if String.eqb coll odd then VInt32 size else VInt64 size.

(** * Properties *)

(** ** Slices filled by index *)

Section FillRange.

Context {A : Type} (f : nat -> A).

Lemma foldl_insert_length (idxs : list nat) (l : list A) :
  length (foldl (fun acc i => <[i := f i]> acc) l idxs) = length l.
Proof.
  revert l; induction idxs as [|i idxs IH]; intros l; [done|].
  cbn [foldl]. rewrite IH. apply length_insert.
Qed.

Lemma foldl_insert_lookup (n s : nat) (l : list A) (j : nat) :
  foldl (fun acc i => <[i := f i]> acc) l (seq s n) !! j =
    if decide (s <= j < s + n /\ j < length l)%nat then Some (f j) else l !! j.
Proof.
  revert s l; induction n as [|n IH]; intros s l.
  - cbn [seq foldl]. case_decide; [lia | done].
  - cbn [seq foldl]. rewrite IH, length_insert.
    destruct (decide (j = s)) as [->|Hne].
    + repeat case_decide; try lia; try done.
      * by rewrite list_lookup_insert_eq by lia.
      * rewrite list_insert_ge by lia. done.
    + rewrite list_lookup_insert_ne by done.
      repeat case_decide; try lia; done.
Qed.

Lemma fill_range_length (l : list A) : length (fill_range f l) = length l.
Proof. apply foldl_insert_length. Qed.

Lemma fill_range_lookup (l : list A) (j : nat) :
  (j < length l)%nat -> fill_range f l !! j = Some (f j).
Proof.
  intros Hj. unfold fill_range. rewrite foldl_insert_lookup.
  case_decide; [done | lia].
Qed.

End FillRange.

Lemma length_append (s1 s2 : string) :
  String.length (s1 +:+ s2) = (String.length s1 + String.length s2)%nat.
Proof.
  induction s1 as [|c s1 IH]; [reflexivity|].
  change (S (String.length (s1 +:+ s2)) = S (String.length s1 + String.length s2)).
  by rewrite IH.
Qed.

Lemma strings_Repeat_length (s : string) (n : nat) :
  String.length (strings_Repeat s n) = (n * String.length s)%nat.
Proof.
  induction n as [|n IH]; [done|].
  change (String.length (s +:+ strings_Repeat s n) = (S n * String.length s)%nat).
  rewrite length_append, IH. lia.
Qed.

(** ** The synthesised document *)

Lemma binaryData_length : Z.of_nat (length binaryData) = 300000.
Proof.
  unfold binaryData. rewrite fill_range_length, length_replicate.
  unfold binaryLen. lia.
Qed.

Lemma binaryData_lookup (i : Z) :
  0 <= i < 300000 -> binaryData !! Z.to_nat i = Some (i mod 256).
Proof.
  intros Hi. unfold binaryData.
  rewrite fill_range_lookup by (rewrite length_replicate; unfold binaryLen; lia).
  unfold byte, go_rem. rewrite Z2Nat.id by lia.
  rewrite Z.rem_mod_nonneg by lia. by rewrite Z.mod_mod by lia.
Qed.


Lemma repetitiveText_length : Z.of_nat (String.length repetitiveText) = 50000 * 53.
Proof.
  unfold repetitiveText. rewrite strings_Repeat_length.
  change (String.length sentence) with 53%nat. unfold repeatCount. lia.
Qed.

(** C10. Whatever identifier and timestamp the call draws, the
    [binary_data] field of the synthesised document is the same block: it
    is 300,000 bytes long, and the byte at every index [i] is [i mod 256],
    so the block repeats with period 256. *)
Theorem binaryData_pattern (objectID : list Z) (now : Z) :
  doc_get "binary_data" (generateLargeDocument objectID now) = Some (VBytes binaryData)
  /\ Z.of_nat (length binaryData) = 300000
  /\ (forall i, 0 <= i < 300000 -> binaryData !! Z.to_nat i = Some (i mod 256))
  /\ (forall i, 0 <= i -> i + 256 < 300000 ->
        binaryData !! Z.to_nat (i + 256) = binaryData !! Z.to_nat i).
Proof.
  split; [reflexivity|]. split; [apply binaryData_length|].
  split; [apply binaryData_lookup|].
  intros i H0 H1. rewrite !binaryData_lookup by lia.
  f_equal. replace (i + 256) with (i + 1 * 256) by lia. apply Z.mod_add. lia.
Qed.

Lemma binaryData_pattern_witness :
  binaryData !! Z.to_nat 299999 = Some 223
  /\ binaryData !! Z.to_nat (1000 + 256) = binaryData !! Z.to_nat 1000.
Proof.
  destruct (binaryData_pattern [] 0) as (_ & _ & Hbyte & Hperiod).
  split; [exact (Hbyte 299999 ltac:(lia)) | exact (Hperiod 1000 ltac:(lia) ltac:(lia))].
Defined.

(** ** The per-algorithm driver *)

Section Driver.

Variable be : Backend.

(** A run whose connection, insert and statistics call are all accepted
    ends on the type assertion: the result is computed from the reported
    storage size, or the run panics. In both cases the client has been
    disconnected. *)
Lemma testCompression_run (algorithm compressor : string) (doc : Document)
    (h : History) (n : nat) (stats : gmap string BsonValue) :
  bson_Marshal be doc = Ok n ->
  mongo_Connect be (connected compressor h) [compressor] = None ->
  collection_InsertOne be (inserted algorithm compressor doc h)
    (collectionOf algorithm) doc = None ->
  database_RunCommand be (queried algorithm compressor doc h)
    (statsCommand algorithm) = Ok stats ->
  testCompression be algorithm compressor doc h =
    (EvDisconnect :: queried algorithm compressor doc h,
     match assert_int64 (stats !! "storageSize") with
     | Panic msg => Panic msg
     | Ret storageSize _ =>
         Ret (mkResult algorithm (Z.of_nat n) storageSize
                ((1 - float64 storageSize / float64 (Z.of_nat n)) * 100)%float
                (float64 (Z.of_nat n) / float64 storageSize)%float
                (time_Now be (inserted algorithm compressor doc h)
                 - time_Now be (dropped algorithm compressor h))) None
     end).
Proof.
  intros Hsize Hconn Hins Hstats.
  unfold testCompression, getDocumentSize. rewrite Hsize.
  fold (connected compressor h). rewrite Hconn.
  unfold measure. cbn [Algorithm OriginalSize CompressedSize ReductionPercent
                       CompressionRatio InsertTime].
  fold (collectionOf algorithm). fold (dropped algorithm compressor h).
  fold (inserted algorithm compressor doc h). rewrite Hins.
  fold (statsCommand algorithm). fold (queried algorithm compressor doc h).
  rewrite Hstats.
  destruct (assert_int64 (stats !! "storageSize")); reflexivity.
Qed.

(** The driver keeps the name it was called with, changes the history
    only by adding to it, and prints nothing. *)
Lemma testCompression_history (algorithm compressor : string) (doc : Document)
    (h h' : History) (out : GoResult CompressionResult) :
  testCompression be algorithm compressor doc h = (h', out) ->
  printed h' = printed h
  /\ (exists k, (k <= 1)%nat /\ insertedDocs h' = (replicate k doc ++ insertedDocs h)%list)
  /\ (forall r err, out = Ret r err -> Algorithm r = algorithm).
Proof.
  unfold testCompression, getDocumentSize, measure.
  cbn [Algorithm OriginalSize CompressedSize ReductionPercent CompressionRatio InsertTime].
  intros H.
  repeat (case_match; simplify_eq); (split; [reflexivity|]);
    (split; [| intros; by simplify_eq]);
    first [ exists 0%nat; split; [lia | reflexivity]
          | exists 1%nat; split; [lia | reflexivity] ].
Qed.

(** A run that inserted did insert exactly once when it returned a result
    without error. *)
Lemma testCompression_inserts_once (algorithm compressor : string) (doc : Document)
    (h h' : History) (r : CompressionResult) :
  testCompression be algorithm compressor doc h = (h', Ret r None) ->
  insertedDocs h' = doc :: insertedDocs h.
Proof.
  unfold testCompression, getDocumentSize, measure.
  cbn [Algorithm OriginalSize CompressedSize ReductionPercent CompressionRatio InsertTime].
  intros H. repeat (case_match; simplify_eq); reflexivity.
Qed.

(** C1. Every result the driver returns without error carries the
    reduction percentage [(1 - compressed/original) * 100] and the ratio
    [original/compressed] of its own two sizes, computed in binary64; for
    sizes 1000 and 500 these are exactly 50 and 2. *)
Theorem testCompression_metrics (algorithm compressor : string) (doc : Document)
    (h h' : History) (r : CompressionResult) :
  testCompression be algorithm compressor doc h = (h', Ret r None) ->
  ReductionPercent r
    = ((1 - float64 (CompressedSize r) / float64 (OriginalSize r)) * 100)%float
  /\ CompressionRatio r
    = (float64 (OriginalSize r) / float64 (CompressedSize r))%float
  /\ (OriginalSize r = 1000 -> CompressedSize r = 500 ->
      CompressionRatio r = 2%float /\ ReductionPercent r = 50%float).
Proof.
  intros H.
  assert (ReductionPercent r
          = ((1 - float64 (CompressedSize r) / float64 (OriginalSize r)) * 100)%float
          /\ CompressionRatio r
          = (float64 (OriginalSize r) / float64 (CompressedSize r))%float) as [Hred Hratio].
  { revert H. unfold testCompression, getDocumentSize, measure.
    cbn [Algorithm OriginalSize CompressedSize ReductionPercent CompressionRatio InsertTime].
    intros H. repeat (case_match; simplify_eq). by split. }
  split; [done|]. split; [done|].
  intros Ho Hc. rewrite Hred, Hratio, Ho, Hc. by split.
Qed.

End Driver.

Lemma testCompression_metrics_witness :
  testCompression (steadyBackend 1000 (fun _ => VInt64 500)) "Zlib" "zlib" tinyDoc []
    = (EvDisconnect :: queried "Zlib" "zlib" tinyDoc [],
       Ret (mkResult "Zlib" 1000 500 50%float 2%float 1000000) None)
  /\ ReductionPercent (mkResult "Zlib" 1000 500 50%float 2%float 1000000)
     = ((1 - float64 500 / float64 1000) * 100)%float
  /\ CompressionRatio (mkResult "Zlib" 1000 500 50%float 2%float 1000000)
     = (float64 1000 / float64 500)%float.
Proof.
  assert (testCompression (steadyBackend 1000 (fun _ => VInt64 500)) "Zlib" "zlib" tinyDoc []
          = (EvDisconnect :: queried "Zlib" "zlib" tinyDoc [],
             Ret (mkResult "Zlib" 1000 500 50%float 2%float 1000000) None)) as Hrun
    by (vm_compute; reflexivity).
  split; [exact Hrun|].
  destruct (testCompression_metrics _ _ _ _ _ _ _ Hrun) as (Hred & Hratio & _).
  split; [exact Hred | exact Hratio].
Defined.

(** C6. When the statistics report a storage size of 0, the driver
    neither fails nor clamps: it returns a result without error whose
    compressed size is 0 and whose reduction and ratio are the plain
    formulas with the zero divisor. *)
Theorem zero_storage_unguarded (be : Backend) (algorithm compressor : string)
    (doc : Document) (h : History) (n : nat) (stats : gmap string BsonValue) :
  bson_Marshal be doc = Ok n ->
  mongo_Connect be (connected compressor h) [compressor] = None ->
  collection_InsertOne be (inserted algorithm compressor doc h)
    (collectionOf algorithm) doc = None ->
  database_RunCommand be (queried algorithm compressor doc h)
    (statsCommand algorithm) = Ok stats ->
  stats !! "storageSize" = Some (VInt64 0) ->
  exists r : CompressionResult,
    testCompression be algorithm compressor doc h
      = (EvDisconnect :: queried algorithm compressor doc h, Ret r None)
    /\ OriginalSize r = Z.of_nat n
    /\ CompressedSize r = 0
    /\ ReductionPercent r = ((1 - float64 0 / float64 (Z.of_nat n)) * 100)%float
    /\ CompressionRatio r = (float64 (Z.of_nat n) / float64 0)%float.
Proof.
  intros Hsize Hconn Hins Hstats Hzero.
  rewrite (testCompression_run be algorithm compressor doc h n stats) by assumption.
  rewrite Hzero. cbn [assert_int64]. eexists. split; [reflexivity|].
  by repeat split.
Qed.

Lemma zero_storage_unguarded_witness :
  exists r : CompressionResult,
    testCompression (steadyBackend 1000 (fun _ => VInt64 0)) "Zstd" "zstd" tinyDoc []
      = (EvDisconnect :: queried "Zstd" "zstd" tinyDoc [], Ret r None)
    /\ OriginalSize r = 1000
    /\ CompressedSize r = 0
    /\ ReductionPercent r = 100%float
    /\ CompressionRatio r = infinity.
Proof.
  exact (zero_storage_unguarded (steadyBackend 1000 (fun _ => VInt64 0))
           "Zstd" "zstd" tinyDoc [] 1000 _
           eq_refl eq_refl eq_refl eq_refl eq_refl).
Defined.

(** C5 (the code at the failing input). When the statistics come back
    with a [storageSize] that is not an int64 (absent, an int32, a
    double, ...), the driver does not return an error: the unchecked type
    assertion panics, after which only the deferred disconnect runs. *)
Theorem stats_shape_panics (be : Backend) (algorithm compressor : string)
    (doc : Document) (h : History) (n : nat) (stats : gmap string BsonValue) :
  bson_Marshal be doc = Ok n ->
  mongo_Connect be (connected compressor h) [compressor] = None ->
  collection_InsertOne be (inserted algorithm compressor doc h)
    (collectionOf algorithm) doc = None ->
  database_RunCommand be (queried algorithm compressor doc h)
    (statsCommand algorithm) = Ok stats ->
  (forall i, stats !! "storageSize" <> Some (VInt64 i)) ->
  testCompression be algorithm compressor doc h
    = (EvDisconnect :: queried algorithm compressor doc h,
       Panic ("interface conversion: interface {} is "
              +:+ dynamic_type (stats !! "storageSize") +:+ ", not int64")).
Proof.
  intros Hsize Hconn Hins Hstats Hshape.
  rewrite (testCompression_run be algorithm compressor doc h n stats) by assumption.
  destruct (stats !! "storageSize") as [[]|] eqn:Hv; try reflexivity.
  by destruct (Hshape i).
Qed.

Lemma stats_shape_panics_witness :
  testCompression (steadyBackend 1000 (fun _ => VInt32 4096)) "Snappy" "snappy" tinyDoc []
    = (EvDisconnect :: queried "Snappy" "snappy" tinyDoc [],
       Panic "interface conversion: interface {} is int32, not int64").
Proof.
  refine (stats_shape_panics (steadyBackend 1000 (fun _ => VInt32 4096))
            "Snappy" "snappy" tinyDoc [] 1000 _ eq_refl eq_refl eq_refl eq_refl _).
  intros i. vm_compute. discriminate.
Defined.

(** ** The orchestrator *)

Section Orchestrator.

Variable be : Backend.

(** The loop over a table split in two is the loop over the first part,
    followed, when that part went through, by the loop over the rest. *)
Lemma runTests_app (pre post : list (string * string)) (doc : Document)
    (acc : list CompressionResult) (h : History) :
  runTests be (pre ++ post) doc acc h =
    match runTests be pre doc acc h with
    | (hk, Ret rs None) => runTests be post doc rs hk
    | other => other
    end.
Proof.
  revert acc h; induction pre as [|[name compressor] pre IH]; intros acc h; [done|].
  cbn [app runTests].
  destruct (testCompression be name compressor doc _) as [h1 [r [err|]|msg]];
    first [reflexivity | apply IH].
Qed.

(** What a loop that went through leaves behind: one result per test, in
    the order of the table, one progress line and one insert per test. *)
Lemma runTests_through (ts : list (string * string)) (doc : Document)
    (acc rs : list CompressionResult) (h h' : History) :
  runTests be ts doc acc h = (h', Ret rs None) ->
  map Algorithm rs = (map Algorithm acc ++ map fst ts)%list
  /\ printed h' = (rev (map (fun t => progressLine (fst t)) ts) ++ printed h)%list
  /\ insertedDocs h' = (replicate (length ts) doc ++ insertedDocs h)%list.
Proof.
  revert acc h; induction ts as [|[name compressor] ts IH]; intros acc h.
  - cbn [runTests]. intros [= <- <-]. by rewrite app_nil_r.
  - cbn [runTests].
    destruct (testCompression be name compressor doc _) as [h1 [r [err|]|msg]] eqn:Hrun;
      try done.
    intros Hrest. apply IH in Hrest as (Hnames & Hprinted & Hdocs).
    destruct (testCompression_history be _ _ _ _ _ _ Hrun) as (Hp & _ & Hname).
    apply testCompression_inserts_once in Hrun.
    split; [|split].
    + rewrite Hnames, map_app. cbn [map fst]. rewrite (Hname r None eq_refl).
      by rewrite <- app_assoc.
    + rewrite Hprinted. cbn [printed map rev fst]. rewrite Hp. cbn [printed].
      by rewrite <- app_assoc.
    + rewrite Hdocs. cbn [insertedDocs]. rewrite Hrun.
      cbn [length]. by rewrite replicate_S_end, <- app_assoc.
Qed.

(** The loop goes through when the driver succeeds wherever it is run. *)
Lemma runTests_total (ts : list (string * string)) (doc : Document)
    (acc : list CompressionResult) (h : History) :
  (forall name compressor h0, In (name, compressor) ts ->
     exists h1 r, testCompression be name compressor doc h0 = (h1, Ret r None)) ->
  exists h' rs, runTests be ts doc acc h = (h', Ret rs None).
Proof.
  revert acc h; induction ts as [|[name compressor] ts IH]; intros acc h Hall.
  - by exists h, acc.
  - cbn [runTests].
    destruct (Hall name compressor (EvPrint ("🧪 Testing " +:+ name +:+ " compression...") :: h))
      as (h1 & r & ->); [by left|].
    apply IH. intros n c h0 Hin. apply Hall. by right.
Qed.

(** C4. A run of the orchestrator that returns results without error
    returns exactly three, named Snappy, Zlib, Zstd in this order; and it
    does return so when the driver succeeds for each algorithm of the
    table. *)
Theorem orchestrator_order (doc : Document) (h : History) :
  (forall h' rs, runAllCompressionTests be doc h = (h', Ret rs None) ->
     map Algorithm rs = ["Snappy"; "Zlib"; "Zstd"] /\ length rs = 3%nat)
  /\ ((forall name compressor h0, In (name, compressor) tests ->
         exists h1 r, testCompression be name compressor doc h0 = (h1, Ret r None)) ->
      exists h' rs, runAllCompressionTests be doc h = (h', Ret rs None)
                    /\ map Algorithm rs = ["Snappy"; "Zlib"; "Zstd"]).
Proof.
  assert (forall h' rs, runAllCompressionTests be doc h = (h', Ret rs None) ->
            map Algorithm rs = ["Snappy"; "Zlib"; "Zstd"]) as Hnames.
  { intros h' rs Hrun. by apply runTests_through in Hrun as (-> & _). }
  split.
  - intros h' rs Hrun. pose proof (Hnames h' rs Hrun) as Hn. split; [done|].
    apply (f_equal length) in Hn. by rewrite length_map in Hn.
  - intros Hall. destruct (runTests_total tests doc [] h Hall) as (h' & rs & Hrun).
    exists h', rs. split; [exact Hrun | exact (Hnames h' rs Hrun)].
Qed.

(** C2. When the loop has gone through the first [k] algorithms and the
    driver returns an error for algorithm [k], the orchestrator stops
    there: it returns the nil slice with an error that names algorithm
    [k], its history is the one the failing driver left, and the only
    progress lines in it are those of algorithms [0] to [k]. Run from
    [main], the program then exits through [log.Fatalf] with that error,
    before the reporter is called. *)
Theorem fail_fast (doc : Document) (h : History) (k : nat) (name compressor : string)
    (hk h' : History) (rs : list CompressionResult) (r : CompressionResult)
    (err : string) :
  tests !! k = Some (name, compressor) ->
  runTests be (take k tests) doc [] h = (hk, Ret rs None) ->
  testCompression be name compressor doc (EvPrint (progressLine name) :: hk)
    = (h', Ret r (Some err)) ->
  runAllCompressionTests be doc h
    = (h', Ret [] (Some (name +:+ " test failed: " +:+ err)))
  /\ printed h'
     = (rev (map (fun t => progressLine (fst t)) (take (S k) tests)) ++ printed h)%list
  /\ (forall h0 : History,
        h = EvConnect "mongodb://localhost:27017" [] "" :: h0 ->
        mongo_Connect be h [] = None ->
        doc = generateLargeDocument (primitive_NewObjectID be h) (time_Now be h) ->
        snd (getDocumentSize be doc) = None ->
        main be h0
          = (h', Fatal ("Compression tests failed: " +:+ name +:+ " test failed: " +:+ err))).
Proof.
  intros Hk Hpre Hfail.
  assert (runAllCompressionTests be doc h
          = (h', Ret [] (Some (name +:+ " test failed: " +:+ err)))) as Hrun.
  { unfold runAllCompressionTests.
    rewrite <- (take_drop k tests) at 1. rewrite runTests_app, Hpre.
    rewrite (drop_S _ _ _ Hk). cbn [runTests].
    fold (progressLine name). by rewrite Hfail. }
  split; [exact Hrun|]. split.
  - destruct (testCompression_history be _ _ _ _ _ _ Hfail) as (-> & _).
    apply runTests_through in Hpre as (_ & Hp & _).
    cbn [printed]. rewrite Hp, (take_S_r _ _ _ Hk), map_app, rev_app_distr.
    reflexivity.
  - intros h0 Hh Hconn Hdoc Hsize. unfold main. cbv zeta.
    rewrite <- Hh, Hconn, <- Hdoc.
    destruct (getDocumentSize be doc) as [originalSize [e|]]; [done|].
    by rewrite Hrun.
Qed.

End Orchestrator.

Lemma orchestrator_order_witness :
  exists h' rs,
    runAllCompressionTests (steadyBackend 1000 (fun _ => VInt64 500)) tinyDoc [] = (h', Ret rs None)
    /\ map Algorithm rs = ["Snappy"; "Zlib"; "Zstd"].
Proof.
  apply (orchestrator_order (steadyBackend 1000 (fun _ => VInt64 500)) tinyDoc []).
  intros name compressor h0 _. eexists _, _.
  rewrite (testCompression_run (steadyBackend 1000 (fun _ => VInt64 500))
             name compressor tinyDoc h0 1000 _ eq_refl eq_refl eq_refl eq_refl).
  reflexivity.
Defined.

Lemma fail_fast_witness :
  exists h',
    runAllCompressionTests (refusingBackend "zlib" 1000 (fun _ => VInt64 500)) tinyDoc []
      = (h', Ret [] (Some "Zlib test failed: server selection error"))
    /\ printed h' = [progressLine "Zlib"; progressLine "Snappy"].
Proof.
  pose (rb := refusingBackend "zlib" 1000 (fun _ => VInt64 500)).
  let v := eval vm_compute in (runTests rb (take 1 tests) tinyDoc [] []) in
  assert (runTests rb (take 1 tests) tinyDoc [] [] = v) as Hpre
    by (vm_compute; reflexivity).
  match type of Hpre with
  | _ = (?hk, _) =>
      let v := eval vm_compute in
        (testCompression rb "Zlib" "zlib" tinyDoc (EvPrint (progressLine "Zlib") :: hk)) in
      assert (testCompression rb "Zlib" "zlib" tinyDoc (EvPrint (progressLine "Zlib") :: hk) = v)
        as Hfail by (vm_compute; reflexivity)
  end.
  destruct (fail_fast rb tinyDoc [] 1 "Zlib" "zlib" _ _ _ _ _ eq_refl Hpre Hfail)
    as (Hrun & Hprinted & _).
  eexists. split; [exact Hrun | exact Hprinted].
Defined.

(** ** The program *)





(** ** The projections of the reporter *)

Lemma float64_monthlyTransfers : float64 monthlyTransfers = 1000000%float.
Proof. reflexivity. Qed.

(** C7 (the claim fails). The bandwidth projection does not use the
    transfer count of the cost projection: a result of one mebibyte
    projects to 1,000 MB, not to 1,000,000 MB. *)
Lemma transfer_counts_differ :
  ~ (forall (originalSizeMB : float) (result : CompressionResult),
       totalMB (networkRow originalSizeMB result)
       = (float64 (CompressedSize result) / 1024 / 1024 * float64 monthlyTransfers)%float).
Proof.
  intros Hsame.
  specialize (Hsame 4.7%float (resultOf "Zlib" 4928307 1048576 0)).
  apply (f_equal (fun x => (x =? 1000)%float)) in Hsame.
  vm_compute in Hsame. discriminate.
Qed.

(** C7 (amended). Each projection applies one transfer count to every
    algorithm and to the uncompressed original, but the two counts
    differ: the bandwidth projection multiplies sizes by 1,000, the cost
    projection by 1,000,000 (at 0.09 per 1024 MB). *)
Theorem transfer_count_per_projection (first : CompressionResult)
    (rest : list CompressionResult) :
  let results := first :: rest in
  let originalSizeMB := (float64 (OriginalSize first) / 1024 / 1024)%float in
  exists a : Analysis,
    displayPerformanceAnalysis results = Ret a None
    /\ map totalMB (network a)
       = map (fun r => (float64 (CompressedSize r) / 1024 / 1024 * 1000)%float) results
    /\ map savedMB (network a)
       = map (fun r => (originalSizeMB * 1000
                        - float64 (CompressedSize r) / 1024 / 1024 * 1000)%float) results
    /\ originalCost (costs a) = (originalSizeMB * 1000000 / 1024 * 0.09)%float
    /\ map cost (costRows (costs a))
       = map (fun r => (float64 (CompressedSize r) / 1024 / 1024 * 1000000 / 1024 * 0.09)%float)
           results.
Proof.
  intros results originalSizeMB. subst results. unfold displayPerformanceAnalysis.
  destruct (foldl select _ _) as [best fast].
  eexists. split; [reflexivity|].
  cbn [network costs originalCost costRows displayCostAnalysis].
  fold originalSizeMB. rewrite !map_map, float64_monthlyTransfers.
  repeat split; apply map_ext; intros r; cbn [totalMB savedMB cost networkRow costRow];
    by rewrite ?float64_monthlyTransfers.
Qed.

(** Every integer of a range passes a test that the list of the range
    passes. *)
Lemma forallb_range (P : Z -> bool) (lo : Z) (n : nat) :
  forallb P (map (fun i => lo + Z.of_nat i) (seq 0 n)) = true ->
  forall b, lo <= b < lo + Z.of_nat n -> P b = true.
Proof.
  intros Hall b Hb. rewrite forallb_forall in Hall. apply Hall.
  apply in_map_iff. exists (Z.to_nat (b - lo)). split; [lia|].
  apply in_seq. lia.
Qed.

Lemma scenarioFigures_range (bytes : Z) :
  scenarioLow <= bytes <= scenarioHigh -> scenarioFigures bytes = true.
Proof.
  intros Hb. apply (forallb_range scenarioFigures scenarioLow (Z.to_nat 10486)).
  - vm_compute. reflexivity.
  - unfold scenarioLow, scenarioHigh in *. lia.
Qed.

(** C8. The cost analysis prices 1,000,000 monthly transfers at 0.09
    per GB: the uncompressed cost is
    [originalSizeMB * 1,000,000 / 1024 * 0.09] and each algorithm's cost
    is [compressedSizeMB * 1,000,000 / 1024 * 0.09]. For 4.7 MB the
    uncompressed cost is 413.09 to the cent, and every result whose
    compressed size is 2.26 MB to two decimals projects to a cost within
    half a dollar of 198.61, a saving within half a dollar of 214.48 and
    a cost reduction within 0.15 of 51.9 percent. *)
Theorem cost_projection_scenario :
  (forall (results : list CompressionResult) (originalSizeMB : float),
     originalCost (displayCostAnalysis results originalSizeMB)
     = (originalSizeMB * 1000000 / 1024 * 0.09)%float
     /\ map cost (costRows (displayCostAnalysis results originalSizeMB))
        = map (fun r => (float64 (CompressedSize r) / 1024 / 1024
                         * 1000000 / 1024 * 0.09)%float) results)
  /\ to_two_decimals (originalCost (displayCostAnalysis [] 4.7%float)) 413.09%float = true
  /\ (forall result : CompressionResult,
        scenarioLow <= CompressedSize result <= scenarioHigh ->
        exists row : CostRow,
          costRows (displayCostAnalysis [result] 4.7%float) = [row]
          /\ to_two_decimals (float64 (CompressedSize result) / 1024 / 1024)%float 2.26%float
             = true
          /\ within (cost row) 198.61%float 0.5%float = true
          /\ within (savings row) 214.48%float 0.5%float = true
          /\ within (costReduction row) 51.9%float 0.15%float = true).
Proof.
  split; [|split].
  - intros results originalSizeMB.
    cbn [originalCost costRows displayCostAnalysis].
    rewrite map_map, float64_monthlyTransfers. split; [reflexivity|].
    apply map_ext; intros r. cbn [cost costRow].
    by rewrite float64_monthlyTransfers.
  - vm_compute. reflexivity.
  - intros result Hsize. apply scenarioFigures_range in Hsize.
    unfold scenarioFigures in Hsize.
    rewrite !andb_true_iff in Hsize. destruct Hsize as [[[Hmb Hcost] Hsave] Hpct].
    eexists. split; [reflexivity|].
    split; [exact Hmb|]. split; [exact Hcost|]. split; [exact Hsave | exact Hpct].
Qed.

Lemma cost_projection_scenario_witness :
  exists row : CostRow,
    costRows (displayCostAnalysis [scenarioResult] 4.7%float) = [row]
    /\ within (cost row) 198.61%float 0.5%float = true
    /\ within (savings row) 214.48%float 0.5%float = true
    /\ to_two_decimals (cost row) 198.61%float = true
    /\ to_two_decimals (savings row) 214.48%float = true.
Proof.
  destruct cost_projection_scenario as (_ & _ & Hscenario).
  destruct (Hscenario scenarioResult) as (row & Hrow & _ & Hcost & Hsave & _).
  { unfold scenarioLow, scenarioHigh. cbn [CompressedSize scenarioResult resultOf]. lia. }
  exists row. split; [exact Hrow|]. split; [exact Hcost|]. split; [exact Hsave|].
  injection Hrow as <-. split; vm_compute; reflexivity.
Defined.

(** ** Comparisons of binary64 *)

Lemma lex_lt_irrefl (a : Z * Z * Z) : ~ lex_lt a a.
Proof. unfold lex_lt. lia. Qed.

Lemma lex_lt_trans (a b c : Z * Z * Z) : lex_lt a b -> lex_lt b c -> lex_lt a c.
Proof. unfold lex_lt. lia. Qed.

Lemma lex_lt_total (a b : Z * Z * Z) : lex_lt a b \/ a = b \/ lex_lt b a.
Proof.
  destruct a as [[a1 a2] a3], b as [[b1 b2] b3]. unfold lex_lt. cbn [fst snd].
  destruct (Z.lt_total a1 b1) as [?|[->|?]]; [lia| |lia].
  destruct (Z.lt_total a2 b2) as [?|[->|?]]; [lia| |lia].
  destruct (Z.lt_total a3 b3) as [?|[->|?]]; [lia| |lia].
  right; left; reflexivity.
Qed.

(** The comparison of the specification is the order of the keys. *)
Lemma SFcompare_key (x y : spec_float) :
  match SFcompare x y with
  | None => x = S754_nan \/ y = S754_nan
  | Some c =>
      x <> S754_nan /\ y <> S754_nan
      /\ match c with
         | Lt => lex_lt (SFkey x) (SFkey y)
         | Eq => SFkey x = SFkey y
         | Gt => lex_lt (SFkey y) (SFkey x)
         end
  end.
Proof.
  destruct x as [sx|sx| |sx mx ex], y as [sy|sy| |sy my ey];
    try destruct sx; try destruct sy; cbn [SFcompare SFkey];
    try (by left); try (by right);
    try (split; [done|split; [done|unfold lex_lt; cbn [fst snd]; first [reflexivity | lia]]]).
  - change (Pos.compare_cont Eq mx my) with (Pos.compare mx my).
    destruct (Z.compare_spec ex ey) as [->| |]; [destruct (Pos.compare_spec mx my) as [->| |]|..];
      cbn [CompOpp]; (split; [done|split; [done|unfold lex_lt; cbn [fst snd]; first [reflexivity | lia]]]).
  - change (Pos.compare_cont Eq mx my) with (Pos.compare mx my).
    destruct (Z.compare_spec ex ey) as [->| |]; [destruct (Pos.compare_spec mx my) as [->| |]|..];
      (split; [done|split; [done|unfold lex_lt; cbn [fst snd]; first [reflexivity | lia]]]).
Qed.

Lemma ltb_key (x y : float) :
  (x <? y)%float = true <-> is_number x /\ is_number y /\ lex_lt (key x) (key y).
Proof.
  rewrite FloatAxioms.ltb_spec. unfold SFltb, is_number, key.
  pose proof (SFcompare_key (Prim2SF x) (Prim2SF y)) as H.
  destruct (SFcompare (Prim2SF x) (Prim2SF y)) as [[]|].
  - destruct H as (? & ? & Heq). split; [done|]. intros (_ & _ & Hlt).
    rewrite Heq in Hlt. by apply lex_lt_irrefl in Hlt.
  - tauto.
  - destruct H as (? & ? & Hgt). split; [done|]. intros (_ & _ & Hlt).
    destruct (lex_lt_irrefl _ (lex_lt_trans _ _ _ Hlt Hgt)).
  - split; [done|]. tauto.
Qed.

Lemma eqb_key (x y : float) :
  (x =? y)%float = true <-> is_number x /\ is_number y /\ key x = key y.
Proof.
  rewrite FloatAxioms.eqb_spec. unfold SFeqb, is_number, key.
  pose proof (SFcompare_key (Prim2SF x) (Prim2SF y)) as H.
  destruct (SFcompare (Prim2SF x) (Prim2SF y)) as [[]|].
  - tauto.
  - destruct H as (? & ? & Hlt). split; [done|]. intros (_ & _ & Heq).
    rewrite Heq in Hlt. by apply lex_lt_irrefl in Hlt.
  - destruct H as (? & ? & Hgt). split; [done|]. intros (_ & _ & Heq).
    rewrite Heq in Hgt. by apply lex_lt_irrefl in Hgt.
  - split; [done|]. tauto.
Qed.

Lemma leb_key (x y : float) :
  (x <=? y)%float = true
  <-> is_number x /\ is_number y /\ (lex_lt (key x) (key y) \/ key x = key y).
Proof.
  rewrite FloatAxioms.leb_spec. unfold SFleb, is_number, key.
  pose proof (SFcompare_key (Prim2SF x) (Prim2SF y)) as H.
  destruct (SFcompare (Prim2SF x) (Prim2SF y)) as [[]|].
  - tauto.
  - tauto.
  - destruct H as (? & ? & Hgt). split; [done|]. intros (_ & _ & [Hlt|Heq]).
    + destruct (lex_lt_irrefl _ (lex_lt_trans _ _ _ Hlt Hgt)).
    + rewrite Heq in Hgt. by apply lex_lt_irrefl in Hgt.
  - split; [done|]. tauto.
Qed.

Lemma float_gt_irrefl (x : float) : float_gt x x = false.
Proof.
  unfold float_gt. destruct (x <? x)%float eqn:H; [|done].
  apply ltb_key in H as (_ & _ & H). by apply lex_lt_irrefl in H.
Qed.

Lemma float_gt_trans (x y z : float) :
  float_gt x y = true -> float_gt y z = true -> float_gt x z = true.
Proof.
  unfold float_gt. rewrite !ltb_key. intros (? & ? & Hyx) (? & ? & Hzy).
  eauto using lex_lt_trans.
Qed.

Lemma float_gt_eqb (x y z : float) :
  (x =? y)%float = true -> float_gt y z = true -> float_gt x z = true.
Proof.
  unfold float_gt. rewrite eqb_key, !ltb_key. intros (? & ? & Heq) (? & ? & Hzy).
  rewrite Heq. done.
Qed.

Lemma float_leb_of_not_gt (x y : float) :
  (x =? x)%float = true -> (y =? y)%float = true ->
  float_gt x y = false -> (x <=? y)%float = true.
Proof.
  unfold float_gt. rewrite !eqb_key, leb_key. intros (Hx & _) (Hy & _) Hgt.
  split; [done|]. split; [done|].
  destruct (lex_lt_total (key x) (key y)) as [?|[?|Hlt]]; [by left | by right |].
  assert ((y <? x)%float = true) as Hyx by (apply ltb_key; done).
  congruence.
Qed.

(** ** The selection of the reporter *)

Section Selection.

Variable results : list CompressionResult.

Lemma select_step (n : nat) (b f x : CompressionResult) :
  results !! n = Some x ->
  best_so_far results n b -> fastest_so_far results n f ->
  best_so_far results (S n) (fst (select (b, f) x))
  /\ fastest_so_far results (S n) (snd (select (b, f) x)).
Proof.
  intros Hx (i & Hi & Hin & Hmax & Hfirst) (k & Hk & Hkn & Hmin & Hkfirst).
  cbn [select fst snd]. split.
  - destruct (float_gt (ReductionPercent x) (ReductionPercent b)) eqn:Hgt.
    + exists n. split; [done|]. split; [lia|]. split.
      * intros j r Hj Hr. destruct (decide (j = n)) as [->|Hne].
        { rewrite Hx in Hr. injection Hr as <-. apply float_gt_irrefl. }
        destruct (float_gt (ReductionPercent r) (ReductionPercent x)) eqn:Hrx; [|done].
        rewrite <- (Hmax j r ltac:(lia) Hr). symmetry.
        by apply (float_gt_trans _ (ReductionPercent x)).
      * intros j r Hj Hr.
        destruct (ReductionPercent r =? ReductionPercent x)%float eqn:Heq; [|done].
        rewrite <- (Hmax j r Hj Hr). symmetry.
        by apply (float_gt_eqb _ (ReductionPercent x)).
    + exists i. split; [done|]. split; [lia|]. split; [|done].
      intros j r Hj Hr. destruct (decide (j = n)) as [->|Hne].
      { rewrite Hx in Hr. by injection Hr as <-. }
      apply (Hmax j r); [lia | done].
  - destruct (InsertTime x <? InsertTime f) eqn:Hlt.
    + apply Z.ltb_lt in Hlt. exists n. split; [done|]. split; [lia|]. split.
      * intros j r Hj Hr. destruct (decide (j = n)) as [->|Hne].
        { rewrite Hx in Hr. injection Hr as <-. lia. }
        specialize (Hmin j r ltac:(lia) Hr). lia.
      * intros j r Hj Hr. specialize (Hmin j r Hj Hr). lia.
    + apply Z.ltb_ge in Hlt. exists k. split; [done|]. split; [lia|]. split; [|done].
      intros j r Hj Hr. destruct (decide (j = n)) as [->|Hne].
      { rewrite Hx in Hr. injection Hr as <-. lia. }
      apply (Hmin j r); [lia | done].
Qed.

Lemma select_loop (l pre : list CompressionResult) (b f : CompressionResult) :
  results = (pre ++ l)%list ->
  best_so_far results (length pre) b -> fastest_so_far results (length pre) f ->
  best_so_far results (length results) (fst (foldl select (b, f) l))
  /\ fastest_so_far results (length results) (snd (foldl select (b, f) l)).
Proof.
  revert pre b f; induction l as [|x l IH]; intros pre b f Hsplit Hb Hf.
  - assert (length results = length pre) as -> by (by rewrite Hsplit, app_nil_r).
    by split.
  - cbn [foldl].
    assert (results !! length pre = Some x) as Hx
      by (rewrite Hsplit; apply list_lookup_middle; reflexivity).
    destruct (select_step (length pre) b f x Hx Hb Hf) as [Hb' Hf'].
    destruct (select (b, f) x) as [b' f'].
    apply (IH (pre ++ [x])%list).
    + by rewrite <- app_assoc.
    + by rewrite length_app, Nat.add_1_r.
    + by rewrite length_app, Nat.add_1_r.
Qed.

End Selection.

(** C3. On a sequence that is not empty the reporter selects, as best
    compression, a result than which no result has a greater reduction
    percentage, and the first of the sequence with that percentage; as
    fastest insert, a result than which none took less time, and the
    first with that time. When no percentage is a NaN, every percentage
    is at most the selected one. *)
Theorem selection_first_extreme (results : list CompressionResult) :
  results <> [] ->
  exists (a : Analysis) (i k : nat),
    displayPerformanceAnalysis results = Ret a None
    /\ results !! i = Some (bestCompression a)
    /\ results !! k = Some (fastest a)
    /\ (forall j r, results !! j = Some r ->
          float_gt (ReductionPercent r) (ReductionPercent (bestCompression a)) = false)
    /\ (forall j r, (j < i)%nat -> results !! j = Some r ->
          (ReductionPercent r =? ReductionPercent (bestCompression a))%float = false)
    /\ (forall j r, results !! j = Some r -> InsertTime (fastest a) <= InsertTime r)
    /\ (forall j r, (j < k)%nat -> results !! j = Some r ->
          InsertTime (fastest a) < InsertTime r)
    /\ ((forall j r, results !! j = Some r ->
           (ReductionPercent r =? ReductionPercent r)%float = true) ->
        forall j r, results !! j = Some r ->
          (ReductionPercent r <=? ReductionPercent (bestCompression a))%float = true).
Proof.
  intros Hne. destruct results as [|first rest]; [done|]. clear Hne.
  unfold displayPerformanceAnalysis. cbv beta iota.
  remember (first :: rest) as rs eqn:Hrs.
  assert (rs !! 0%nat = Some first) as Hfirst by (by rewrite Hrs).
  destruct (select_loop rs rs [] first first) as [Hb Hf].
  { reflexivity. }
  { exists 0%nat. split; [done|]. split; [by left|]. split; cbn [length]; intros; lia. }
  { exists 0%nat. split; [done|]. split; [by left|]. split; cbn [length]; intros; lia. }
  destruct (foldl select (first, first) rs) as [b f]. cbn [fst snd] in Hb, Hf.
  destruct Hb as (i & Hi & _ & Hmax & Hbfirst), Hf as (k & Hk & _ & Hmin & Hffirst).
  eexists _, i, k. split; [reflexivity|].
  cbn [bestCompression fastest].
  split; [done|]. split; [done|].
  assert (forall j (r : CompressionResult), rs !! j = Some r -> (j < length rs)%nat)
    as Hlen by (intros j r Hr; by apply lookup_lt_Some in Hr).
  split; [eauto|]. split; [done|]. split; [eauto|]. split; [done|].
  intros Hnum j r Hr. apply float_leb_of_not_gt; eauto.
Qed.

Lemma selection_first_extreme_witness :
  exists (a : Analysis) (i k : nat),
    displayPerformanceAnalysis tiedResults = Ret a None
    /\ tiedResults !! i = Some (bestCompression a)
    /\ tiedResults !! k = Some (fastest a)
    /\ (forall j r, tiedResults !! j = Some r ->
          float_gt (ReductionPercent r) (ReductionPercent (bestCompression a)) = false)
    /\ (forall j r, (j < i)%nat -> tiedResults !! j = Some r ->
          (ReductionPercent r =? ReductionPercent (bestCompression a))%float = false)
    /\ (forall j r, tiedResults !! j = Some r -> InsertTime (fastest a) <= InsertTime r)
    /\ (forall j r, (j < k)%nat -> tiedResults !! j = Some r ->
          InsertTime (fastest a) < InsertTime r)
    /\ ((forall j r, tiedResults !! j = Some r ->
           (ReductionPercent r =? ReductionPercent r)%float = true) ->
        forall j r, tiedResults !! j = Some r ->
          (ReductionPercent r <=? ReductionPercent (bestCompression a))%float = true).
Proof. apply (selection_first_extreme tiedResults). discriminate. Defined.

(** On the tied sequence both selections are Zlib, the earlier of the two
    tied results. *)
Example tiedResults_selection :
  exists a : Analysis,
    displayPerformanceAnalysis tiedResults = Ret a None
    /\ Algorithm (bestCompression a) = "Zlib" /\ Algorithm (fastest a) = "Zlib".
Proof. eexists. split; [vm_compute; reflexivity | split; reflexivity]. Qed.

(** The range of the scenario is exact: the byte counts next to its ends
    are not 2.26 MB to two decimals. *)
Example scenario_range_ends :
  map (fun bytes => to_two_decimals (float64 bytes / 1024 / 1024)%float 2.26%float)
    [scenarioLow - 1; scenarioLow; scenarioHigh; scenarioHigh + 1]
  = [false; true; true; false].
Proof. vm_compute. reflexivity. Qed.

(** At 2.26 * 2^20 bytes, rounded to a byte, the cost and the saving are
    198.63 and 214.45 to the cent. *)
Example cost_at_nominal_size :
  map (fun row => (to_two_decimals (cost row) 198.63%float,
                   to_two_decimals (savings row) 214.45%float))
    (costRows (displayCostAnalysis [resultOf "Zlib" 4928307 2369782 0] 4.7%float))
  = [(true, true)].
Proof. vm_compute. reflexivity. Qed.

(** * Further properties of the code *)

(** ** The synthesised document, continued *)

(** X1. Every slot of the item array is filled: for each index [i] below
    5,000 the entry is the product item of [i], whose [id] is [i], whose
    name is [Product_Item_Number_] followed by [i] in decimal and whose
    price is [float64(i) * 1.99]. No slot keeps the nil value the slice
    was made with. *)
Theorem items_filled (i : Z) :
  0 <= i < 5000 ->
  exists m : gmap string BsonValue,
    items !! Z.to_nat i = Some (VM m)
    /\ m !! "id" = Some (VInt i)
    /\ m !! "name" = Some (VString ("Product_Item_Number_" +:+ pretty i))
    /\ m !! "price" = Some (VDouble (float64 i * 1.99)%float)
    /\ m !! "description"
       = Some (VString "This is a repeated item description that compresses efficiently with MongoDB compression algorithms").
Proof.
  intros Hi. eexists. split.
  - unfold items. rewrite fill_range_lookup
      by (rewrite length_replicate; unfold itemCount; lia).
    unfold productItem. rewrite Z2Nat.id by lia. reflexivity.
  - repeat split; reflexivity.
Qed.

Lemma items_filled_witness :
  exists m : gmap string BsonValue,
    items !! Z.to_nat 4999 = Some (VM m)
    /\ m !! "id" = Some (VInt 4999)
    /\ m !! "name" = Some (VString "Product_Item_Number_4999").
Proof.
  destruct (items_filled 4999 ltac:(lia)) as (m & Hm & Hid & Hname & _).
  exists m. split; [exact Hm|]. split; [exact Hid | exact Hname].
Defined.



(** ** The driver, continued *)

Section DriverPaths.

Variable be : Backend.

(** X3. An error the driver returns is the error of one backend call,
    handed on as it is, and it fixes how far the run went: an encoding
    error leaves the history untouched; a connection error leaves only
    the attempt; an insert error ends the run before any statistics are
    asked for; a statistics error comes last. The result returned with
    the error holds only what was known by then. *)
Theorem driver_error_paths (algorithm compressor : string) (doc : Document)
    (h h' : History) (r : CompressionResult) (err : string) :
  testCompression be algorithm compressor doc h = (h', Ret r (Some err)) ->
  (bson_Marshal be doc = Fail err
   /\ h' = h /\ r = mkResult algorithm 0 0 0%float 0%float 0)
  \/ (exists n : nat,
        bson_Marshal be doc = Ok n
        /\ ((mongo_Connect be (connected compressor h) [compressor] = Some err
             /\ h' = connected compressor h
             /\ r = mkResult algorithm (Z.of_nat n) 0 0%float 0%float 0)
            \/ (mongo_Connect be (connected compressor h) [compressor] = None
                /\ collection_InsertOne be (inserted algorithm compressor doc h)
                     (collectionOf algorithm) doc = Some err
                /\ h' = EvDisconnect :: inserted algorithm compressor doc h
                /\ r = mkResult algorithm (Z.of_nat n) 0 0%float 0%float 0)
            \/ (mongo_Connect be (connected compressor h) [compressor] = None
                /\ collection_InsertOne be (inserted algorithm compressor doc h)
                     (collectionOf algorithm) doc = None
                /\ database_RunCommand be (queried algorithm compressor doc h)
                     (statsCommand algorithm) = Fail err
                /\ h' = EvDisconnect :: queried algorithm compressor doc h
                /\ r = mkResult algorithm (Z.of_nat n) 0 0%float 0%float
                         (time_Now be (inserted algorithm compressor doc h)
                          - time_Now be (dropped algorithm compressor h))))).
Proof.
  unfold testCompression, getDocumentSize, measure.
  cbn [Algorithm OriginalSize CompressedSize ReductionPercent CompressionRatio InsertTime].
  fold (collectionOf algorithm). fold (connected compressor h).
  fold (dropped algorithm compressor h). fold (inserted algorithm compressor doc h).
  fold (statsCommand algorithm). fold (queried algorithm compressor doc h).
  intros H. destruct (bson_Marshal be doc) as [n|e] eqn:Hsize.
  2:{ left. by simplify_eq. }
  right. exists n. split; [done|].
  destruct (mongo_Connect be _ _) as [e|] eqn:Hconn.
  { simplify_eq. left. done. }
  destruct (collection_InsertOne be _ _ _) as [e|] eqn:Hins.
  { simplify_eq. right. left. done. }
  destruct (database_RunCommand be _ _) as [stats|e] eqn:Hstats.
  { destruct (assert_int64 _); simplify_eq. }
  simplify_eq. right. right. done.
Qed.

End DriverPaths.

Lemma driver_error_paths_witness :
  testCompression (rejectingBackend "test_zlib" 1000 (fun _ => VInt64 500))
    "Zlib" "zlib" tinyDoc []
  = (EvDisconnect :: inserted "Zlib" "zlib" tinyDoc [],
     Ret (mkResult "Zlib" 1000 0 0%float 0%float 0) (Some "write exception"))
  /\ bson_Marshal (rejectingBackend "test_zlib" 1000 (fun _ => VInt64 500)) tinyDoc
     = Ok 1000%nat.
Proof.
  assert (testCompression (rejectingBackend "test_zlib" 1000 (fun _ => VInt64 500))
            "Zlib" "zlib" tinyDoc []
          = (EvDisconnect :: inserted "Zlib" "zlib" tinyDoc [],
             Ret (mkResult "Zlib" 1000 0 0%float 0%float 0) (Some "write exception")))
    as Hrun by (vm_compute; reflexivity).
  split; [exact Hrun|].
  destruct (driver_error_paths _ _ _ _ _ _ _ _ Hrun) as [(Hfail & _)|(n & Hn & _)].
  - vm_compute in Hfail. discriminate.
  - reflexivity.
Defined.

Section DriverTeardown.

Variable be : Backend.

(** The counts a run of the driver adds to a history: it drops no
    database, it disconnects at most the one client it connected, and it
    disconnects it whenever it does not return an error. *)
Lemma testCompression_balance (algorithm compressor : string) (doc : Document)
    (h h' : History) (out : GoResult CompressionResult) :
  testCompression be algorithm compressor doc h = (h', out) ->
  databaseDrops h' = databaseDrops h
  /\ exists c d : nat,
       driverConnects h' = (driverConnects h + c)%nat
       /\ disconnects h' = (disconnects h + d)%nat
       /\ (d <= c <= 1)%nat
       /\ match out with Ret _ (Some _) => True | _ => d = 1%nat /\ c = 1%nat end.
Proof.
  unfold testCompression, getDocumentSize, measure.
  cbn [Algorithm OriginalSize CompressedSize ReductionPercent CompressionRatio InsertTime].
  intros H.
  repeat (case_match; simplify_eq); (split; [reflexivity|]);
    first [ exists 0%nat, 0%nat; cbn; repeat split; (lia || done)
          | exists 1%nat, 0%nat; cbn; repeat split; (lia || done)
          | exists 1%nat, 1%nat; cbn; repeat split; (lia || done) ].
Qed.

(** X4. The client of a run is released on every way out. Once the
    connection is made, the last event of the run is its disconnect,
    whether the run returns a result, returns an error or panics, and it
    is the only disconnect of the run; when the encoding or the
    connection fails there is no client and nothing is disconnected. *)
Theorem driver_teardown (algorithm compressor : string) (doc : Document)
    (h h' : History) (out : GoResult CompressionResult) :
  testCompression be algorithm compressor doc h = (h', out) ->
  (forall e, bson_Marshal be doc = Fail e -> h' = h)
  /\ (forall n e, bson_Marshal be doc = Ok n ->
        mongo_Connect be (connected compressor h) [compressor] = Some e ->
        h' = connected compressor h)
  /\ (forall n, bson_Marshal be doc = Ok n ->
        mongo_Connect be (connected compressor h) [compressor] = None ->
        exists rest, h' = EvDisconnect :: rest
                     /\ disconnects rest = disconnects h
                     /\ driverConnects rest = S (driverConnects h)).
Proof.
  unfold testCompression, getDocumentSize, measure.
  cbn [Algorithm OriginalSize CompressedSize ReductionPercent CompressionRatio InsertTime].
  fold (connected compressor h).
  intros H. split; [|split].
  - intros e He. rewrite He in H. by simplify_eq.
  - intros n e Hn He. rewrite Hn, He in H. by simplify_eq.
  - intros n Hn Hc. rewrite Hn, Hc in H.
    repeat (case_match; simplify_eq); eexists; (split; [reflexivity|]); by split.
Qed.

(** X5. A result without error is returned only by a run that went
    through every step: the history is exactly connect, drop, insert,
    statistics, disconnect; the original size is the length of the
    encoding; the compressed size is the int64 the statistics report
    under [storageSize], taken as it is; and the insert time is the
    difference of the two clock readings around the insert. *)
Theorem driver_success_trace (algorithm compressor : string) (doc : Document)
    (h h' : History) (r : CompressionResult) :
  testCompression be algorithm compressor doc h = (h', Ret r None) ->
  h' = EvDisconnect :: queried algorithm compressor doc h
  /\ Algorithm r = algorithm
  /\ 0 <= OriginalSize r
  /\ bson_Marshal be doc = Ok (Z.to_nat (OriginalSize r))
  /\ mongo_Connect be (connected compressor h) [compressor] = None
  /\ collection_InsertOne be (inserted algorithm compressor doc h)
       (collectionOf algorithm) doc = None
  /\ (exists stats,
        database_RunCommand be (queried algorithm compressor doc h)
          (statsCommand algorithm) = Ok stats
        /\ stats !! "storageSize" = Some (VInt64 (CompressedSize r)))
  /\ InsertTime r = time_Now be (inserted algorithm compressor doc h)
                    - time_Now be (dropped algorithm compressor h).
Proof.
  unfold testCompression, getDocumentSize, measure.
  cbn [Algorithm OriginalSize CompressedSize ReductionPercent CompressionRatio InsertTime].
  fold (collectionOf algorithm). fold (connected compressor h).
  fold (dropped algorithm compressor h). fold (inserted algorithm compressor doc h).
  fold (statsCommand algorithm). fold (queried algorithm compressor doc h).
  intros H.
  destruct (bson_Marshal be doc) as [n|e] eqn:Hsize; [|by simplify_eq].
  destruct (mongo_Connect be _ _) as [e|] eqn:Hconn; [by simplify_eq|].
  destruct (collection_InsertOne be _ _ _) as [e|] eqn:Hins; [by simplify_eq|].
  destruct (database_RunCommand be _ _) as [stats|e] eqn:Hstats; [|by simplify_eq].
  unfold assert_int64 in H.
  destruct (stats !! "storageSize") as [[]|] eqn:Hv; simplify_eq.
  cbn [Algorithm OriginalSize CompressedSize InsertTime].
  rewrite Nat2Z.id. repeat split; try done; try lia. by exists stats.
Qed.

End DriverTeardown.

Lemma driver_teardown_witness :
  exists rest,
    fst (testCompression (steadyBackend 1000 (fun _ => VInt32 4096))
           "Snappy" "snappy" tinyDoc [])
    = EvDisconnect :: rest
    /\ disconnects rest = 0%nat.
Proof.
  destruct (testCompression (steadyBackend 1000 (fun _ => VInt32 4096))
              "Snappy" "snappy" tinyDoc []) as [h' out] eqn:Hrun.
  destruct (driver_teardown _ _ _ _ _ _ _ Hrun) as (_ & _ & Hopen).
  destruct (Hopen 1000%nat eq_refl eq_refl) as (rest & Hrest & Hd & _).
  exists rest. split; [exact Hrest | exact Hd].
Defined.

Lemma driver_success_trace_witness :
  testCompression (steadyBackend 1000 (fun _ => VInt64 500)) "Zstd" "zstd" tinyDoc []
  = (EvDisconnect :: queried "Zstd" "zstd" tinyDoc [],
     Ret (mkResult "Zstd" 1000 500 50%float 2%float 1000000) None)
  /\ exists stats,
       database_RunCommand (steadyBackend 1000 (fun _ => VInt64 500))
         (queried "Zstd" "zstd" tinyDoc []) (statsCommand "Zstd") = Ok stats
       /\ stats !! "storageSize" = Some (VInt64 500).
Proof.
  assert (testCompression (steadyBackend 1000 (fun _ => VInt64 500)) "Zstd" "zstd" tinyDoc []
          = (EvDisconnect :: queried "Zstd" "zstd" tinyDoc [],
             Ret (mkResult "Zstd" 1000 500 50%float 2%float 1000000) None)) as Hrun
    by (vm_compute; reflexivity).
  split; [exact Hrun|].
  destruct (driver_success_trace _ _ _ _ _ _ _ Hrun) as (_ & _ & _ & _ & _ & _ & Hstats & _).
  exact Hstats.
Defined.

(** ** The orchestrator, continued *)

Section OrchestratorPaths.

Variable be : Backend.

Lemma testCompression_ok_history (algorithm compressor : string) (doc : Document)
    (h h' : History) (r : CompressionResult) :
  testCompression be algorithm compressor doc h = (h', Ret r None) ->
  h' = EvDisconnect :: queried algorithm compressor doc h
  /\ exists n, bson_Marshal be doc = Ok n /\ OriginalSize r = Z.of_nat n.
Proof.
  unfold testCompression, getDocumentSize, measure.
  cbn [Algorithm OriginalSize CompressedSize ReductionPercent CompressionRatio InsertTime].
  intros H. repeat (case_match; simplify_eq). split; [reflexivity|]. by eexists.
Qed.

(** The history of a loop that went through is the trace of its runs. *)
Lemma runTests_trace (ts : list (string * string)) (doc : Document)
    (acc rs : list CompressionResult) (h h' : History) :
  runTests be ts doc acc h = (h', Ret rs None) ->
  h' = foldl (fun h0 t => runTrace (fst t) (snd t) doc h0) h ts.
Proof.
  revert acc h; induction ts as [|[name compressor] ts IH]; intros acc h.
  - cbn [runTests foldl]. by intros [= <- <-].
  - cbn [runTests foldl fst snd].
    destruct (testCompression be name compressor doc _) as [h1 [r [err|]|msg]] eqn:Hrun;
      try done.
    intros Hrest. apply IH in Hrest as ->.
    apply testCompression_ok_history in Hrun as (-> & _). reflexivity.
Qed.

(** The results of a loop that went through all carry the length of the
    one encoding of the document. *)
Lemma runTests_sizes (ts : list (string * string)) (doc : Document)
    (acc rs : list CompressionResult) (h h' : History) (n : nat) :
  bson_Marshal be doc = Ok n ->
  Forall (fun r => OriginalSize r = Z.of_nat n) acc ->
  runTests be ts doc acc h = (h', Ret rs None) ->
  Forall (fun r => OriginalSize r = Z.of_nat n) rs.
Proof.
  intros Hn. revert acc h; induction ts as [|[name compressor] ts IH]; intros acc h Hacc.
  - cbn [runTests]. by intros [= <- <-].
  - cbn [runTests].
    destruct (testCompression be name compressor doc _) as [h1 [r [err|]|msg]] eqn:Hrun;
      try done.
    apply IH. apply Forall_app. split; [done|].
    apply testCompression_ok_history in Hrun as (_ & m & Hm & Hr).
    rewrite Hn in Hm. injection Hm as <-. by repeat constructor.
Qed.

(** An error of the loop comes from one run, after the runs before it
    went through, and no result is returned with it. *)
Lemma runTests_error (ts : list (string * string)) (doc : Document)
    (acc rs : list CompressionResult) (h h' : History) (err : string) :
  runTests be ts doc acc h = (h', Ret rs (Some err)) ->
  rs = []
  /\ exists (k : nat) (name compressor : string) (hk : History)
            (rs0 : list CompressionResult) (r : CompressionResult) (e : string),
       ts !! k = Some (name, compressor)
       /\ runTests be (take k ts) doc acc h = (hk, Ret rs0 None)
       /\ testCompression be name compressor doc (EvPrint (progressLine name) :: hk)
          = (h', Ret r (Some e))
       /\ err = name +:+ " test failed: " +:+ e.
Proof.
  revert acc h; induction ts as [|[name compressor] ts IH]; intros acc h.
  - cbn [runTests]. intros [=].
  - cbn [runTests]. fold (progressLine name).
    destruct (testCompression be name compressor doc _) as [h1 [r [e|]|msg]] eqn:Hrun.
    + intros [= <- <- <-]. split; [done|].
      exists 0%nat, name, compressor, h, acc, r, e. by repeat split.
    + intros Hrest. apply IH in Hrest as (-> & k & n & c & hk & rs0 & r0 & e & Hk & Hpre & Hfail & ->).
      split; [done|].
      exists (S k), n, c, hk, rs0, r0, e. repeat split; try done.
      cbn [take runTests]. fold (progressLine name). by rewrite Hrun.
    + intros [=].
Qed.

(** What the loop adds to the counts of a history, however it ends: no
    database is dropped, and no more clients are disconnected than the
    runs connected; as many, unless the loop returns an error. *)
Lemma runTests_balance (ts : list (string * string)) (doc : Document)
    (acc : list CompressionResult) (h h' : History)
    (out : GoResult (list CompressionResult)) :
  runTests be ts doc acc h = (h', out) ->
  databaseDrops h' = databaseDrops h
  /\ exists c d : nat,
       driverConnects h' = (driverConnects h + c)%nat
       /\ disconnects h' = (disconnects h + d)%nat
       /\ (d <= c)%nat
       /\ match out with Ret _ (Some _) => True | _ => d = c end.
Proof.
  revert acc h; induction ts as [|[name compressor] ts IH]; intros acc h.
  - cbn [runTests]. intros [= <- <-]. split; [done|]. exists 0%nat, 0%nat.
    repeat split; lia.
  - cbn [runTests].
    destruct (testCompression be name compressor doc _) as [h1 o] eqn:Hrun.
    apply testCompression_balance in Hrun as (Hdrops & c & d & Hc & Hd & Hle & Hout).
    cbn [databaseDrops driverConnects disconnects] in Hdrops, Hc, Hd.
    destruct o as [r [e|]|msg].
    + intros [= <- <-]. split; [done|]. exists c, d. repeat split; (done || lia).
    + intros Hrest. apply IH in Hrest as (Hdrops' & c' & d' & Hc' & Hd' & Hle' & Hout').
      cbn [databaseDrops driverConnects disconnects] in Hdrops', Hc', Hd'.
      split; [congruence|]. exists (c + c')%nat, (d + d')%nat.
      destruct Hout as [-> ->].
      repeat split; try lia. destruct out as [? [?|]|?]; (done || lia).
    + intros [= <- <-]. split; [done|]. exists c, d. destruct Hout as [-> ->].
      repeat split; (done || lia).
Qed.

End OrchestratorPaths.

Section OrchestratorExtras.

Variable be : Backend.

(** X6. A run of the orchestrator that returns results leaves exactly
    this trace: for Snappy, then Zlib, then Zstd, the progress line, a
    connection that asks for that one compressor, the drop of the
    algorithm's own collection, the insert, the statistics call, the
    disconnect and a sleep of 100 ms, also after the last algorithm.
    Each algorithm writes to a collection of its own. *)
Theorem orchestrator_trace (doc : Document) (h h' : History)
    (rs : list CompressionResult) :
  runAllCompressionTests be doc h = (h', Ret rs None) ->
  h' = runTrace "Zstd" "zstd" doc
         (runTrace "Zlib" "zlib" doc (runTrace "Snappy" "snappy" doc h))
  /\ connections h' = ([["zstd"]; ["zlib"]; ["snappy"]] ++ connections h)%list
  /\ map collectionOf ["Snappy"; "Zlib"; "Zstd"] = ["test_snappy"; "test_zlib"; "test_zstd"].
Proof.
  intros Hrun. apply runTests_trace in Hrun.
  split; [exact Hrun|]. split; [|reflexivity].
  rewrite Hrun. reflexivity.
Qed.

(** X7. When the orchestrator returns an error, it returns no result
    with it, and the error is the error of one run of the table, with
    [<name> test failed: ] put before it; the runs before that one went
    through, and the history stops where the failing run stopped. *)
Theorem orchestrator_error_shape (doc : Document) (h h' : History)
    (rs : list CompressionResult) (err : string) :
  runAllCompressionTests be doc h = (h', Ret rs (Some err)) ->
  rs = []
  /\ exists (k : nat) (name compressor : string) (hk : History)
            (rs0 : list CompressionResult) (r : CompressionResult) (e : string),
       tests !! k = Some (name, compressor)
       /\ runTests be (take k tests) doc [] h = (hk, Ret rs0 None)
       /\ length rs0 = k
       /\ testCompression be name compressor doc (EvPrint (progressLine name) :: hk)
          = (h', Ret r (Some e))
       /\ err = name +:+ " test failed: " +:+ e.
Proof.
  intros Hrun. apply runTests_error in Hrun
    as (-> & k & name & c & hk & rs0 & r & e & Hk & Hpre & Hfail & ->).
  split; [done|]. exists k, name, c, hk, rs0, r, e.
  repeat split; try done.
  pose proof (runTests_through be _ _ _ _ _ _ Hpre) as (Hnames & _).
  apply (f_equal length) in Hnames.
  rewrite !length_map, length_app, !length_map, length_take in Hnames.
  apply lookup_lt_Some in Hk. cbn [length] in *. lia.
Qed.

(** X8. A panic of the driver is not turned into an error: when the
    runs before algorithm [k] went through and the run of algorithm [k]
    panics, the orchestrator panics with the same message, and [main]
    dies of it after disconnecting its own client. *)
Theorem orchestrator_panic (doc : Document) (h : History) (k : nat)
    (name compressor : string) (hk h' : History) (rs : list CompressionResult)
    (msg : string) :
  tests !! k = Some (name, compressor) ->
  runTests be (take k tests) doc [] h = (hk, Ret rs None) ->
  testCompression be name compressor doc (EvPrint (progressLine name) :: hk)
    = (h', Panic msg) ->
  runAllCompressionTests be doc h = (h', Panic msg)
  /\ (forall h0 : History,
        h = EvConnect "mongodb://localhost:27017" [] "" :: h0 ->
        mongo_Connect be h [] = None ->
        doc = generateLargeDocument (primitive_NewObjectID be h) (time_Now be h) ->
        snd (getDocumentSize be doc) = None ->
        main be h0 = (EvDisconnect :: h', Crashed msg)).
Proof.
  intros Hk Hpre Hpanic.
  assert (runAllCompressionTests be doc h = (h', Panic msg)) as Hrun.
  { unfold runAllCompressionTests.
    rewrite <- (take_drop k tests) at 1. rewrite runTests_app, Hpre.
    rewrite (drop_S _ _ _ Hk). cbn [runTests].
    fold (progressLine name). by rewrite Hpanic. }
  split; [exact Hrun|].
  intros h0 Hh Hconn Hdoc Hsize. unfold main. cbv zeta.
  rewrite <- Hh, Hconn, <- Hdoc.
  destruct (getDocumentSize be doc) as [originalSize [e|]]; [done|].
  by rewrite Hrun.
Qed.

(** X9. The results of one benchmark share their original size: each
    carries the length of the one encoding of the document. *)
Theorem orchestrator_shared_size (doc : Document) (h h' : History)
    (rs : list CompressionResult) :
  runAllCompressionTests be doc h = (h', Ret rs None) ->
  exists n : nat,
    bson_Marshal be doc = Ok n
    /\ map OriginalSize rs = [Z.of_nat n; Z.of_nat n; Z.of_nat n].
Proof.
  intros Hrun.
  assert (exists n, bson_Marshal be doc = Ok n) as [n Hn].
  { revert Hrun. unfold runAllCompressionTests. cbn [runTests tests].
    destruct (testCompression be "Snappy" "snappy" doc _) as [h1 [r [e|]|m]] eqn:Hfirst;
      try done.
    intros _. apply testCompression_ok_history in Hfirst as (_ & n & Hn & _). by exists n. }
  exists n. split; [exact Hn|].
  pose proof (runTests_sizes be tests doc [] rs h h' n Hn (Forall_nil_2 _) Hrun) as Hall.
  apply runTests_through in Hrun as (Hnames & _).
  apply (f_equal length) in Hnames. rewrite length_map in Hnames. cbn in Hnames.
  destruct rs as [|r1 [|r2 [|r3 [|]]]]; try discriminate.
  repeat match goal with H : Forall _ (_ :: _) |- _ => apply Forall_cons in H as [? H] end.
  cbn [map]. congruence.
Qed.

End OrchestratorExtras.

Lemma orchestrator_trace_witness :
  connections (fst (runAllCompressionTests (steadyBackend 1000 (fun _ => VInt64 500)) tinyDoc []))
  = [["zstd"]; ["zlib"]; ["snappy"]].
Proof.
  assert (exists h' rs,
            runAllCompressionTests (steadyBackend 1000 (fun _ => VInt64 500)) tinyDoc []
            = (h', Ret rs None)) as (h' & rs & Hrun)
    by (vm_compute; eexists _, _; reflexivity).
  destruct (orchestrator_trace _ _ _ _ _ Hrun) as (_ & Hconn & _).
  rewrite Hrun. exact Hconn.
Defined.

Lemma orchestrator_error_shape_witness :
  exists (k : nat) (e : string),
    tests !! k = Some ("Zlib", "zlib")
    /\ snd (runAllCompressionTests (refusingBackend "zlib" 1000 (fun _ => VInt64 500)) tinyDoc [])
       = Ret [] (Some ("Zlib" +:+ " test failed: " +:+ e)).
Proof.
  assert (exists h',
            runAllCompressionTests (refusingBackend "zlib" 1000 (fun _ => VInt64 500)) tinyDoc []
            = (h', Ret [] (Some "Zlib test failed: server selection error")))
    as (h' & Hrun) by (vm_compute; eexists; reflexivity).
  destruct (orchestrator_error_shape _ _ _ _ _ _ Hrun)
    as (_ & k & name & c & hk & rs0 & r & e & Hk & _ & _ & _ & Herr).
  exists 1%nat, "server selection error". split; [reflexivity|].
  rewrite Hrun. reflexivity.
Defined.

Lemma orchestrator_panic_witness :
  exists h',
    runAllCompressionTests (steadyBackend 1000 (oddStorage "test_zlib" 500)) tinyDoc []
    = (h', Panic "interface conversion: interface {} is int32, not int64").
Proof.
  pose (sb := steadyBackend 1000 (oddStorage "test_zlib" 500)).
  let v := eval vm_compute in (runTests sb (take 1 tests) tinyDoc [] []) in
  assert (runTests sb (take 1 tests) tinyDoc [] [] = v) as Hpre
    by (vm_compute; reflexivity).
  match type of Hpre with
  | _ = (?hk, _) =>
      let v := eval vm_compute in
        (testCompression sb "Zlib" "zlib" tinyDoc (EvPrint (progressLine "Zlib") :: hk)) in
      assert (testCompression sb "Zlib" "zlib" tinyDoc (EvPrint (progressLine "Zlib") :: hk) = v)
        as Hpanic by (vm_compute; reflexivity)
  end.
  destruct (orchestrator_panic sb tinyDoc [] 1 "Zlib" "zlib" _ _ _ _ eq_refl Hpre Hpanic)
    as (Hrun & _).
  eexists. exact Hrun.
Defined.

Lemma orchestrator_shared_size_witness :
  map OriginalSize
    (match snd (runAllCompressionTests (steadyBackend 1000 (fun _ => VInt64 500)) tinyDoc [])
     with Ret rs _ => rs | Panic _ => [] end)
  = [1000; 1000; 1000].
Proof.
  assert (exists h' rs,
            runAllCompressionTests (steadyBackend 1000 (fun _ => VInt64 500)) tinyDoc []
            = (h', Ret rs None)) as (h' & rs & Hrun)
    by (vm_compute; eexists _, _; reflexivity).
  destruct (orchestrator_shared_size _ _ _ _ _ Hrun) as (n & Hn & Hsizes).
  rewrite Hrun. cbn [snd]. rewrite Hsizes.
  injection Hn as <-. reflexivity.
Defined.

(** ** The program, continued *)

Section ProgramExtras.

Variable be : Backend.

(** X10. The database is dropped only by a run that completes: then the
    drop and the disconnect of the program's own client are the last two
    events. On every other exit, fatal or by panic, no database is
    dropped, so what the runs inserted stays in the server. *)
Theorem main_cleanup (h : History) :
  match snd (main be h) with
  | Completed _ _ =>
      exists rest, fst (main be h) = EvDisconnect :: EvDropDatabase "compression_demo" :: rest
                   /\ databaseDrops rest = databaseDrops h
  | Fatal _ | Crashed _ => databaseDrops (fst (main be h)) = databaseDrops h
  end.
Proof.
  unfold main. cbv zeta.
  destruct (mongo_Connect be _ _) as [e|]; [reflexivity|].
  destruct (getDocumentSize be _) as [originalSize [e|]]; [reflexivity|].
  unfold runAllCompressionTests.
  destruct (runTests be tests _ [] _) as [h2 out] eqn:Hrun.
  apply runTests_balance in Hrun as (Hdrops & _).
  cbn [databaseDrops] in Hdrops.
  destruct out as [results [e|]|msg]; cbn [fst snd databaseDrops]; try done.
  destruct (displayResults results _) as [[chart analysis] ?|msg];
    cbn [fst snd databaseDrops]; [|done].
  by eexists.
Qed.

(** X11. Who is disconnected. Besides its own client the program makes
    one connection per run of the driver. When it completes, the three
    runs and the program itself have all disconnected; when it dies of a
    panic, every client that was connected has been disconnected; when
    it exits through [log.Fatalf], only clients of the driver have been
    disconnected, never more than the driver connected, so the program's
    own client is left open. *)
Theorem main_connections (h : History) :
  exists c d : nat,
    driverConnects (fst (main be h)) = (driverConnects h + c)%nat
    /\ disconnects (fst (main be h)) = (disconnects h + d)%nat
    /\ match snd (main be h) with
       | Completed _ _ => c = 3%nat /\ d = 4%nat
       | Crashed _ => d = S c
       | Fatal _ => (d <= c)%nat
       end.
Proof.
  unfold main. cbv zeta.
  destruct (mongo_Connect be _ _) as [e|].
  { exists 0%nat, 0%nat. cbn. repeat split; lia. }
  destruct (getDocumentSize be _) as [originalSize [e|]].
  { exists 0%nat, 0%nat. cbn. repeat split; lia. }
  unfold runAllCompressionTests.
  destruct (runTests be tests _ [] _) as [h2 out] eqn:Hrun.
  pose proof (runTests_balance be _ _ _ _ _ _ Hrun) as (_ & c & d & Hc & Hd & Hle & Hout).
  cbn [driverConnects disconnects String.eqb] in Hc, Hd.
  destruct out as [results [e|]|msg]; cbn [fst snd driverConnects disconnects].
  - exists c, d. by repeat split.
  - subst d. destruct (displayResults results _) as [[chart analysis] ?|msg];
      cbn [fst snd driverConnects disconnects].
    + apply runTests_trace in Hrun. subst h2.
      exists 3%nat, 4%nat. split; [|split; [|done]].
      * cbn. lia.
      * cbn. lia.
    + exists c, (S c). repeat split; lia.
  - subst d. exists c, (S c). repeat split; lia.
Qed.

End ProgramExtras.

(** ** The reporter, continued *)








Lemma float_leb_trans (x y z : float) :
  (x <=? y)%float = true -> (y <=? z)%float = true -> (x <=? z)%float = true.
Proof.
  rewrite !leb_key. intros (Hx & Hy & Hxy) (_ & Hz & Hyz).
  split; [done|]. split; [done|].
  destruct Hxy as [Hxy| ->]; [|done].
  destruct Hyz as [Hyz| <-]; [|by left].
  left. by apply (lex_lt_trans _ (key y)).
Qed.

Lemma float_leb_number (x y : float) :
  (x <=? y)%float = true -> (y =? y)%float = true.
Proof. rewrite leb_key, eqb_key. intros (_ & Hy & _). done. Qed.

(** X14. The reduction colour is green from 50 percent on, yellow from
    30 percent on and red below; a percentage that is not a number is
    red; and the colour follows the order of the percentages: above a
    green percentage all is green, below a red one all is red. *)
Theorem reduction_color_order (r1 r2 : float) :
  (getReductionColor r1 = ansi "32" <-> (50 <=? r1)%float = true)
  /\ (getReductionColor r1 = ansi "31" <-> (30 <=? r1)%float = false)
  /\ ((r1 =? r1)%float = false -> getReductionColor r1 = ansi "31")
  /\ ((r1 <=? r2)%float = true ->
      (getReductionColor r1 = ansi "32" -> getReductionColor r2 = ansi "32")
      /\ (getReductionColor r2 = ansi "31" -> getReductionColor r1 = ansi "31")).
Proof.
  assert (forall r, getReductionColor r = ansi "32" <-> (50 <=? r)%float = true) as Hgreen.
  { intros r. unfold getReductionColor.
    destruct (50 <=? r)%float; [done|].
    destruct (30 <=? r)%float; split; intros H;
      first [done | vm_compute in H; discriminate]. }
  assert (forall r, getReductionColor r = ansi "31" <-> (30 <=? r)%float = false) as Hred.
  { intros r. unfold getReductionColor.
    destruct (50 <=? r)%float eqn:H50.
    - assert ((30 <=? r)%float = true) as ->
        by (apply (float_leb_trans _ 50%float); [reflexivity | done]).
      split; intros H; first [done | vm_compute in H; discriminate].
    - destruct (30 <=? r)%float; split; intros H;
        first [done | vm_compute in H; discriminate]. }
  split; [apply Hgreen|]. split; [apply Hred|]. split.
  - intros Hnan. apply Hred. destruct (30 <=? r1)%float eqn:H30; [|done].
    apply float_leb_number in H30. congruence.
  - intros Hle. split.
    + rewrite !Hgreen. intros H50. by apply (float_leb_trans _ r1).
    + rewrite !Hred. intros H30. destruct (30 <=? r1)%float eqn:H1; [|done].
      rewrite <- H30. symmetry. by apply (float_leb_trans _ r1).
Qed.

Lemma reduction_color_order_witness :
  getReductionColor 75%float = ansi "32" /\ getReductionColor nan = ansi "31".
Proof.
  destruct (reduction_color_order 52%float 75%float) as (_ & _ & _ & Hmono).
  destruct (Hmono eq_refl) as [Hgreen _].
  split; [apply Hgreen; reflexivity|].
  destruct (reduction_color_order nan nan) as (_ & _ & Hnan & _).
  apply Hnan. reflexivity.
Defined.

Lemma int64_small (z : Z) : - 2 ^ 63 <= z < 2 ^ 63 -> int64 z = z.
Proof.
  intros Hz. unfold int64.
  change (2 ^ 64) with 18446744073709551616. change (2 ^ 63) with 9223372036854775808 in *.
  rewrite Z.mod_small by lia. lia.
Qed.

Lemma lessThanHalf_millisecond (r : Z) :
  0 <= r < 1000000 -> lessThanHalf r 1000000 = (r <? 500000).
Proof.
  intros Hr. unfold lessThanHalf. change (2 ^ 64) with 18446744073709551616.
  rewrite (Z.mod_small r), (Z.mod_small (r + r)), (Z.mod_small 1000000) by lia.
  destruct (Z.ltb_spec (r + r) 1000000), (Z.ltb_spec r 500000); (done || lia).
Qed.

(** X15. The insert time is printed rounded to the millisecond: for a
    duration that is not within a millisecond of the ends of the int64
    range, [Round(time.Millisecond)] is the nearest multiple of
    1,000,000 ns, a half rounding away from zero. *)
Theorem insert_time_rounding (d : Z) :
  Z.abs d <= 2 ^ 63 - 1 - 1000000 ->
  duration_Round d millisecond
  = Z.sgn d * ((Z.abs d + 500000) / 1000000 * 1000000).
Proof.
  change (2 ^ 63) with 9223372036854775808. intros Hd.
  unfold duration_Round, millisecond, go_rem.
  change (1000000 <=? 0) with false. cbv iota.
  destruct (Z.ltb_spec d 0) as [Hneg|Hpos].
  - assert (Z.rem d 1000000 = - ((- d) mod 1000000)) as ->.
    { replace d with (- (- d)) at 1 by lia.
      rewrite Z.rem_opp_l by lia. by rewrite Z.rem_mod_nonneg by lia. }
    rewrite Z.opp_involutive.
    pose proof (Z.mod_pos_bound (- d) 1000000 ltac:(lia)) as Hr.
    rewrite (int64_small ((- d) mod 1000000))
      by (change (2 ^ 63) with 9223372036854775808; lia).
    rewrite lessThanHalf_millisecond by lia.
    rewrite Z.sgn_neg, Z.abs_neq by lia.
    destruct (Z.ltb_spec ((- d) mod 1000000) 500000).
    + rewrite int64_small by (change (2 ^ 63) with 9223372036854775808; lia).
      Z.div_mod_to_equations. lia.
    + rewrite (int64_small (d - 1000000))
        by (change (2 ^ 63) with 9223372036854775808; lia).
      rewrite int64_small by (change (2 ^ 63) with 9223372036854775808; lia).
      destruct (Z.ltb_spec (d - 1000000 + (- d) mod 1000000) d); [|lia].
      Z.div_mod_to_equations. lia.
  - rewrite Z.rem_mod_nonneg by lia.
    pose proof (Z.mod_pos_bound d 1000000 ltac:(lia)) as Hr.
    rewrite lessThanHalf_millisecond by lia.
    rewrite Z.abs_eq by lia.
    destruct (Z.ltb_spec (d mod 1000000) 500000).
    + rewrite int64_small by (change (2 ^ 63) with 9223372036854775808; lia).
      assert (d = 0 \/ 0 < d) as [->|Hd0] by lia; [reflexivity|].
      rewrite Z.sgn_pos by lia. Z.div_mod_to_equations. lia.
    + rewrite (int64_small (d + 1000000))
        by (change (2 ^ 63) with 9223372036854775808; lia).
      rewrite int64_small by (change (2 ^ 63) with 9223372036854775808; lia).
      destruct (Z.ltb_spec d (d + 1000000 - d mod 1000000)); [|lia].
      assert (0 < d) as Hd0
        by (destruct (Z.eq_dec d 0) as [->|]; [rewrite Z.mod_0_l in *; lia | lia]).
      rewrite Z.sgn_pos by lia. Z.div_mod_to_equations. lia.
Qed.

Lemma insert_time_rounding_witness :
  duration_Round 1500000 millisecond = 2000000
  /\ duration_Round 1499999 millisecond = 1000000.
Proof.
  split.
  - exact (insert_time_rounding 1500000 ltac:(vm_compute; discriminate)).
  - exact (insert_time_rounding 1499999 ltac:(vm_compute; discriminate)).
Defined.

(** X16. For the results of the orchestrator the switches on the
    algorithm name never reach their default case: the headings are
    yellow, green and cyan with their three emojis, the bars yellow,
    green and green; the red question-mark style is not used. *)
Theorem orchestrated_styles (be : Backend) (doc : Document) (h h' : History)
    (rs : list CompressionResult) :
  runAllCompressionTests be doc h = (h', Ret rs None) ->
  map (fun r => (blockColour (resultBlock r), blockEmoji (resultBlock r))) rs
    = [(Yellow, "🚀"); (Green, "📦"); (Cyan, "⚡")]
  /\ map (fun r => chartColour (Algorithm r)) rs = [Yellow; Green; Green].
Proof.
  intros Hrun. apply runTests_through in Hrun as (Hnames & _).
  cbn [map app fst tests] in Hnames.
  destruct rs as [|r1 [|r2 [|r3 [|]]]]; try discriminate.
  injection Hnames as H1 H2 H3.
  cbn [map]. unfold resultBlock. rewrite H1, H2, H3. by split.
Qed.

Lemma orchestrated_styles_witness :
  map (fun r => chartColour (Algorithm r))
    (match snd (runAllCompressionTests (steadyBackend 1000 (fun _ => VInt64 500)) tinyDoc [])
     with Ret rs _ => rs | Panic _ => [] end)
  = [Yellow; Green; Green].
Proof.
  assert (exists h' rs,
            runAllCompressionTests (steadyBackend 1000 (fun _ => VInt64 500)) tinyDoc []
            = (h', Ret rs None)) as (h' & rs & Hrun)
    by (vm_compute; eexists _, _; reflexivity).
  destruct (orchestrated_styles _ _ _ _ _ Hrun) as (_ & Hbars).
  rewrite Hrun. exact Hbars.
Defined.

(** ** The text blob and the exits of the program *)

Lemma strings_Repeat_get (s : string) (n i : nat) :
  (i < n * String.length s)%nat ->
  String.get i (strings_Repeat s n) = String.get (i mod String.length s) s.
Proof.
  revert i; induction n as [|n IH]; intros i Hi; [lia|].
  change (strings_Repeat s (S n)) with (s +:+ strings_Repeat s n).
  destruct (Nat.lt_ge_cases i (String.length s)) as [Hlt|Hge].
  - rewrite <- append_correct1 by done. by rewrite Nat.mod_small.
  - replace i with ((i - String.length s) + String.length s)%nat at 1 by lia.
    rewrite <- append_correct2, IH by lia.
    replace i with ((i - String.length s) + 1 * String.length s)%nat at 2 by lia.
    by rewrite Nat.Div0.mod_add.
Qed.

(** X17. The text blob of the document is the sentence of 53 characters
    written 50,000 times: it has 2,650,000 characters, and the character
    at every index [i] is the character of the sentence at [i mod 53]. *)
Theorem text_blob_pattern (objectID : list Z) (now : Z) :
  doc_get "repetitive_text" (generateLargeDocument objectID now)
    = Some (VString repetitiveText)
  /\ Z.of_nat (String.length repetitiveText) = 2650000
  /\ (forall i, 0 <= i < 2650000 ->
        String.get (Z.to_nat i) repetitiveText
        = String.get (Z.to_nat (i mod 53)) sentence).
Proof.
  split; [reflexivity|]. split; [rewrite repetitiveText_length; reflexivity|].
  intros i Hi. unfold repetitiveText.
  rewrite strings_Repeat_get
    by (change (String.length sentence) with 53%nat; unfold repeatCount; lia).
  change (String.length sentence) with 53%nat.
  rewrite Z2Nat.inj_mod by lia. reflexivity.
Qed.

Lemma text_blob_pattern_witness :
  String.get (Z.to_nat 2649999) repetitiveText = Some " "%char
  /\ String.get (Z.to_nat 53) repetitiveText = Some "T"%char.
Proof.
  destruct (text_blob_pattern [] 0) as (_ & _ & Hchar).
  split.
  - rewrite (Hchar 2649999) by lia. reflexivity.
  - rewrite (Hchar 53) by lia. reflexivity.
Defined.


